(** * A PSDK-to-MSDK data bridge: shallow embedding of [demo.py]

    The program relays payload items received from a PSDK client to an
    MSDK client.  Three threads cooperate: the SDK's own receive thread
    (it invokes [PSDKReceiver.data_callback]), the bridge worker
    ([DataBridge._bridge_worker]) and the main thread
    ([DataBridge.start] / [DataBridge.stop]).  They share the
    module-level [data_queue] and the bridge's [running] flag.

    The methods are embedded as computations in a state-and-exception
    monad; the threads are embedded as a step function over a schedule
    of atomic actions. *)

From Stdlib Require Import List String ZArith Bool Arith Lia.
Import ListNotations.
Local Open Scope string_scope.
Local Open Scope list_scope.

Set Implicit Arguments.

(** ** Exceptions and outcomes *)

(** The exceptions the program can meet.  All of them are instances of
    Python's [Exception], which is what every handler of the program
    catches. *)
Inductive exn : Type :=
| Empty                      (* queue.Empty, raised by Queue.get on timeout *)
| ValueError                 (* Queue.task_done called too many times *)
| AttributeError             (* a method call on None *)
| SDKError (code : nat).     (* anything a dji_sdk client raises *)

Inductive outcome (A : Type) : Type :=
| Return (a : A)
| Raise (e : exn).
Arguments Raise {A} e.

(** ** The monad: state passing with exceptions

    A raising computation keeps the state changes made before the
    raise, as Python does. *)
Definition M (S A : Type) : Type := S -> outcome A * S.

Definition ret {S A} (a : A) : M S A := fun s => (Return a, s).

Definition raise {S A} (e : exn) : M S A := fun s => (Raise e, s).

Definition bind {S A B} (m : M S A) (k : A -> M S B) : M S B :=
  fun s => match m s with
           | (Return a, s') => k a s'
           | (Raise e, s') => (Raise e, s')
           end.

(** [try: m / except Exception as e: h e] *)
Definition try_except {S A} (m : M S A) (h : exn -> M S A) : M S A :=
  fun s => match m s with
           | (Return a, s') => (Return a, s')
           | (Raise e, s') => h e s'
           end.

Notation "x <- c1 ;; c2" := (bind c1 (fun x => c2))
  (at level 61, c1 at next level, right associativity).
Notation "c1 ;; c2" := (bind c1 (fun _ => c2))
  (at level 61, right associativity).

(** Timeouts are whole numbers of seconds in the source ([1.0], [5.0]). *)
Definition seconds : Type := Z.

Section Bridge.

(** The payload delivered by the PSDK is an arbitrary Python value; the
    reading of [time.time()] is kept abstract as well. *)
Variable RawItem : Type.
Variable Instant : Type.

(** ** Data model *)

(** The dictionary built by [MSDKTransmitter.process_data]. *)
Record Envelope : Type := {
  timestamp : Instant;
  payload_data : RawItem;
  type : string
}.

(** A client object is identified by the position of its constructor
    call in the history of library calls. *)
Definition handle : Type := nat.

(** Every call the program makes into a library ([dji_sdk], [time],
    [queue], [threading]). *)
Inductive call : Type :=
| PSDKClient (device_path : string) (baud_rate : Z)
| psdk_initialize (c : handle)
| psdk_register_data_callback (c : handle)
| psdk_start_receiving (c : handle)
| psdk_stop_receiving (c : handle)
| psdk_finalize (c : handle)
| MSDKClient (app_id app_key : string)
| msdk_initialize (c : handle)
| msdk_send_data (c : handle) (e : Envelope)
| msdk_finalize (c : handle)
| time_time
| queue_put (d : RawItem)
| queue_get (timeout : seconds)
| queue_task_done
| thread_start
| thread_join (timeout : seconds).

(** The behaviour of the libraries the program does not control: for a
    call issued after a given history, whether a [dji_sdk] call raises,
    what [send_data] answers and what the clock reads. *)
Record SDK : Type := {
  raises : list call -> call -> option exn;
  ack : list call -> handle -> Envelope -> bool;
  clock : list call -> Instant
}.

Inductive level : Type := DEBUG | INFO | ERROR.

(** The log lines of the program, by source line. *)
Inductive message : Type :=
| psdk_connecting (path : string)          (* l.41 *)
| psdk_connected                           (* l.44 *)
| psdk_connect_failed (e : exn)            (* l.47 *)
| psdk_data_received (d : RawItem)         (* l.52 *)
| psdk_started                             (* l.68 *)
| psdk_start_failed (e : exn)              (* l.71 *)
| psdk_stopped                             (* l.80 *)
| msdk_initializing                        (* l.95 *)
| msdk_initialized                         (* l.98 *)
| msdk_init_failed (e : exn)               (* l.101 *)
| msdk_not_initialized                     (* l.107 *)
| msdk_send_status (result : bool)         (* l.114 *)
| msdk_send_failed (e : exn)               (* l.117 *)
| msdk_started                             (* l.138 *)
| msdk_stopped                             (* l.146 *)
| worker_started                           (* l.178 *)
| worker_error (e : exn)                   (* l.195 *)
| worker_stopped                           (* l.197 *)
| receiver_start_failed                    (* l.203 *)
| transmitter_start_failed                 (* l.208 *)
| bridge_started                           (* l.218 *)
| bridge_stopping                          (* l.223 *)
| bridge_stopped.                          (* l.234 *)

(** [queue.Queue()]: unbounded, with the counter behind [task_done]. *)
Record Queue : Type := {
  items : list RawItem;
  unfinished_tasks : nat
}.

(** The state shared by every object of the process: the module-level
    [data_queue], the history of library calls, and the records the
    logger has emitted. *)
Record World : Type := {
  data_queue : Queue;
  trace : list call;
  log : list (level * message)
}.

(** The state of the module after its top-level statements (l.27). *)
Definition module_init : World :=
  {| data_queue := {| items := []; unfinished_tasks := 0 |};
     trace := [];
     log := [] |}.

Record PSDKReceiver : Type := {
  device_path : string;
  baud_rate : Z;
  psdk_client : option handle;
  psdk_running : bool
}.

Record MSDKTransmitter : Type := {
  app_id : string;
  app_key : string;
  msdk_client : option handle;
  msdk_running : bool
}.

(** ** Primitive computations *)

Section Primitives.
Variable Self : Type.

Definition get_self : M (Self * World) Self :=
  fun s => (Return (fst s), s).

Definition set_self (f : Self -> Self) : M (Self * World) unit :=
  fun s => (Return tt, (f (fst s), snd s)).

Definition get_world : M (Self * World) World :=
  fun s => (Return (snd s), s).

Definition set_world (f : World -> World) : M (Self * World) unit :=
  fun s => (Return tt, (fst s, f (snd s))).

Definition record_call (c : call) : M (Self * World) unit :=
  set_world (fun w => {| data_queue := data_queue w;
                         trace := trace w ++ [c];
                         log := log w |}).

(** [logging.basicConfig(level=logging.INFO)] (l.15): the logger keeps
    the records at level INFO and above and discards those at level
    DEBUG. *)
Definition enabled (l : level) : bool :=
  match l with
  | DEBUG => false
  | INFO => true
  | ERROR => true
  end.

Definition logger (l : level) (m : message) : M (Self * World) unit :=
  if enabled l
  then set_world (fun w => {| data_queue := data_queue w;
                              trace := trace w;
                              log := log w ++ [(l, m)] |})
  else ret tt.

(** A method call on an attribute that may hold [None]. *)
Definition deref (o : option handle) : M (Self * World) handle :=
  match o with
  | Some c => ret c
  | None => raise AttributeError
  end.

Variable sdk : SDK.

(** A call into a [dji_sdk] client: recorded, then it returns or
    raises as the library decides. *)
Definition sdk_call (c : call) : M (Self * World) unit :=
  w <- get_world ;;
  record_call c ;;
  match raises sdk (trace w) c with
  | Some e => raise e
  | None => ret tt
  end.

(** A constructor call: the new object's handle is its position in the
    history. *)
Definition sdk_new (c : call) : M (Self * World) handle :=
  w <- get_world ;;
  sdk_call c ;;
  ret (List.length (trace w)).

Definition sdk_send_data (c : handle) (e : Envelope) : M (Self * World) bool :=
  w <- get_world ;;
  sdk_call (msdk_send_data c e) ;;
  ret (ack sdk (trace w) c e).

Definition time_now : M (Self * World) Instant :=
  w <- get_world ;;
  record_call time_time ;;
  ret (clock sdk (trace w)).

(** [data_queue.put(d)]: the queue is unbounded, so [put] never blocks
    and never fails. *)
Definition data_queue_put (d : RawItem) : M (Self * World) unit :=
  record_call (queue_put d) ;;
  set_world (fun w => {| data_queue :=
                           {| items := items (data_queue w) ++ [d];
                              unfinished_tasks := S (unfinished_tasks (data_queue w)) |};
                         trace := trace w;
                         log := log w |}).

(** [data_queue.get(timeout=t)]: the oldest item, or [queue.Empty] when
    none has arrived by the end of the timeout.  An item that arrives
    while [get] waits is a push scheduled before this step. *)
Definition data_queue_get (t : seconds) : M (Self * World) RawItem :=
  record_call (queue_get t) ;;
  w <- get_world ;;
  match items (data_queue w) with
  | [] => raise Empty
  | d :: rest =>
      set_world (fun w => {| data_queue :=
                               {| items := rest;
                                  unfinished_tasks := unfinished_tasks (data_queue w) |};
                             trace := trace w;
                             log := log w |}) ;;
      ret d
  end.

(** [data_queue.task_done()] *)
Definition data_queue_task_done : M (Self * World) unit :=
  record_call queue_task_done ;;
  w <- get_world ;;
  match unfinished_tasks (data_queue w) with
  | O => raise ValueError
  | S n =>
      set_world (fun w => {| data_queue :=
                               {| items := items (data_queue w);
                                  unfinished_tasks := n |};
                             trace := trace w;
                             log := log w |})
  end.

End Primitives.

Arguments get_self {Self}.
Arguments set_self {Self} f.
Arguments get_world {Self}.
Arguments set_world {Self} f.
Arguments record_call {Self} c.
Arguments logger {Self} l m.
Arguments deref {Self} o.
Arguments sdk_call {Self} sdk c.
Arguments sdk_new {Self} sdk c.
Arguments sdk_send_data {Self} sdk c e.
Arguments time_now {Self} sdk.
Arguments data_queue_put {Self} d.
Arguments data_queue_get {Self} t.
Arguments data_queue_task_done {Self}.

Variable sdk : SDK.

(** ** class PSDKReceiver *)

Definition PSDKReceiver_init (device_path : string) (baud_rate : Z) : PSDKReceiver :=
  {| device_path := device_path;
     baud_rate := baud_rate;
     psdk_client := None;
     psdk_running := false |}.

Definition set_psdk_client (c : option handle) (self : PSDKReceiver) : PSDKReceiver :=
  {| device_path := device_path self;
     baud_rate := baud_rate self;
     psdk_client := c;
     psdk_running := psdk_running self |}.

Definition set_psdk_running (b : bool) (self : PSDKReceiver) : PSDKReceiver :=
  {| device_path := device_path self;
     baud_rate := baud_rate self;
     psdk_client := psdk_client self;
     psdk_running := b |}.

Definition PSDKReceiver_connect : M (PSDKReceiver * World) bool :=
  try_except
    (self <- get_self ;;
     logger INFO (psdk_connecting (device_path self)) ;;
     c <- sdk_new sdk (PSDKClient (device_path self) (baud_rate self)) ;;
     set_self (set_psdk_client (Some c)) ;;
     sdk_call sdk (psdk_initialize c) ;;
     logger INFO psdk_connected ;;
     ret true)
    (fun e =>
     logger ERROR (psdk_connect_failed e) ;;
     ret false).

Definition PSDKReceiver_data_callback (data : RawItem) : M (PSDKReceiver * World) unit :=
  logger DEBUG (psdk_data_received data) ;;
  data_queue_put data.

(** The part of [start] after the connection test (l.62-72). *)
Definition PSDKReceiver_start_receiving : M (PSDKReceiver * World) bool :=
  try_except
    (self <- get_self ;;
     c <- deref (psdk_client self) ;;
     sdk_call sdk (psdk_register_data_callback c) ;;
     set_self (set_psdk_running true) ;;
     sdk_call sdk (psdk_start_receiving c) ;;
     logger INFO psdk_started ;;
     ret true)
    (fun e =>
     logger ERROR (psdk_start_failed e) ;;
     ret false).

Definition PSDKReceiver_start : M (PSDKReceiver * World) bool :=
  self <- get_self ;;
  match psdk_client self with
  | None =>
      connected <- PSDKReceiver_connect ;;
      if negb connected then ret false
      else PSDKReceiver_start_receiving
  | Some _ => PSDKReceiver_start_receiving
  end.

Definition PSDKReceiver_stop : M (PSDKReceiver * World) unit :=
  self <- get_self ;;
  match psdk_client self with
  | Some c =>
      if psdk_running self then
        set_self (set_psdk_running false) ;;
        sdk_call sdk (psdk_stop_receiving c) ;;
        sdk_call sdk (psdk_finalize c) ;;
        logger INFO psdk_stopped
      else ret tt
  | None => ret tt
  end.

(** ** class MSDKTransmitter *)

Definition MSDKTransmitter_init (app_id app_key : string) : MSDKTransmitter :=
  {| app_id := app_id;
     app_key := app_key;
     msdk_client := None;
     msdk_running := false |}.

Definition set_msdk_client (c : option handle) (self : MSDKTransmitter) : MSDKTransmitter :=
  {| app_id := app_id self;
     app_key := app_key self;
     msdk_client := c;
     msdk_running := msdk_running self |}.

Definition set_msdk_running (b : bool) (self : MSDKTransmitter) : MSDKTransmitter :=
  {| app_id := app_id self;
     app_key := app_key self;
     msdk_client := msdk_client self;
     msdk_running := b |}.

Definition MSDKTransmitter_connect : M (MSDKTransmitter * World) bool :=
  try_except
    (self <- get_self ;;
     logger INFO msdk_initializing ;;
     c <- sdk_new sdk (MSDKClient (app_id self) (app_key self)) ;;
     set_self (set_msdk_client (Some c)) ;;
     sdk_call sdk (msdk_initialize c) ;;
     logger INFO msdk_initialized ;;
     ret true)
    (fun e =>
     logger ERROR (msdk_init_failed e) ;;
     ret false).

Definition MSDKTransmitter_process_data (data : RawItem) : M (MSDKTransmitter * World) Envelope :=
  now <- time_now sdk ;;
  ret {| timestamp := now; payload_data := data; type := "sensor_data" |}.

Definition MSDKTransmitter_send_signal (data : RawItem) : M (MSDKTransmitter * World) bool :=
  self <- get_self ;;
  match msdk_client self with
  | None =>
      logger ERROR msdk_not_initialized ;;
      ret false
  | Some _ =>
      try_except
        (processed_data <- MSDKTransmitter_process_data data ;;
         self <- get_self ;;
         c <- deref (msdk_client self) ;;
         result <- sdk_send_data sdk c processed_data ;;
         logger DEBUG (msdk_send_status result) ;;
         ret result)
        (fun e =>
         logger ERROR (msdk_send_failed e) ;;
         ret false)
  end.

Definition MSDKTransmitter_start : M (MSDKTransmitter * World) bool :=
  self <- get_self ;;
  connected <- match msdk_client self with
               | None => MSDKTransmitter_connect
               | Some _ => ret true
               end ;;
  if negb connected then ret false
  else
    set_self (set_msdk_running true) ;;
    logger INFO msdk_started ;;
    ret true.

Definition MSDKTransmitter_stop : M (MSDKTransmitter * World) unit :=
  self <- get_self ;;
  match msdk_client self with
  | Some c =>
      if msdk_running self then
        set_self (set_msdk_running false) ;;
        sdk_call sdk (msdk_finalize c) ;;
        logger INFO msdk_stopped
      else ret tt
  | None => ret tt
  end.

(** ** class DataBridge *)

Record psdk_config_t : Type := {
  cfg_device_path : string;
  cfg_baud_rate : Z
}.

Record msdk_config_t : Type := {
  cfg_app_id : string;
  cfg_app_key : string
}.

Definition default_psdk_config : psdk_config_t :=
  {| cfg_device_path := "/dev/ttyUSB0"; cfg_baud_rate := 115200 |}.

Definition default_msdk_config : msdk_config_t :=
  {| cfg_app_id := "your_app_id"; cfg_app_key := "your_app_key" |}.

(** The worker thread object, with the point its target
    [_bridge_worker] has reached: not yet at its first statement, at
    the test of the [while], inside the body of the [while], or
    returned. *)
Inductive Thread : Type :=
| AtEntry
| AtLoopTest
| InBody
| Finished.

Definition is_alive (t : Thread) : bool :=
  match t with
  | Finished => false
  | _ => true
  end.

Record DataBridge : Type := {
  psdk_config : psdk_config_t;
  msdk_config : msdk_config_t;
  psdk_receiver : PSDKReceiver;
  msdk_transmitter : MSDKTransmitter;
  bridge_thread : option Thread;
  running : bool
}.

Definition set_psdk_receiver (r : PSDKReceiver) (self : DataBridge) : DataBridge :=
  {| psdk_config := psdk_config self;
     msdk_config := msdk_config self;
     psdk_receiver := r;
     msdk_transmitter := msdk_transmitter self;
     bridge_thread := bridge_thread self;
     running := running self |}.

Definition set_msdk_transmitter (t : MSDKTransmitter) (self : DataBridge) : DataBridge :=
  {| psdk_config := psdk_config self;
     msdk_config := msdk_config self;
     psdk_receiver := psdk_receiver self;
     msdk_transmitter := t;
     bridge_thread := bridge_thread self;
     running := running self |}.

Definition set_bridge_thread (t : option Thread) (self : DataBridge) : DataBridge :=
  {| psdk_config := psdk_config self;
     msdk_config := msdk_config self;
     psdk_receiver := psdk_receiver self;
     msdk_transmitter := msdk_transmitter self;
     bridge_thread := t;
     running := running self |}.

Definition set_running (b : bool) (self : DataBridge) : DataBridge :=
  {| psdk_config := psdk_config self;
     msdk_config := msdk_config self;
     psdk_receiver := psdk_receiver self;
     msdk_transmitter := msdk_transmitter self;
     bridge_thread := bridge_thread self;
     running := b |}.

(** A method of [self.psdk_receiver] run from a method of the bridge. *)
Definition on_receiver {A} (m : M (PSDKReceiver * World) A) : M (DataBridge * World) A :=
  fun s => match m (psdk_receiver (fst s), snd s) with
           | (r, (rx, w)) => (r, (set_psdk_receiver rx (fst s), w))
           end.

(** A method of [self.msdk_transmitter] run from a method of the bridge. *)
Definition on_transmitter {A} (m : M (MSDKTransmitter * World) A) : M (DataBridge * World) A :=
  fun s => match m (msdk_transmitter (fst s), snd s) with
           | (r, (tx, w)) => (r, (set_msdk_transmitter tx (fst s), w))
           end.

(** [DataBridge(psdk_config, msdk_config)]: the constructor builds the
    two endpoints and touches nothing else; in particular it reads and
    writes no part of the world. *)
Definition DataBridge_init (psdk_cfg : option psdk_config_t)
    (msdk_cfg : option msdk_config_t) : M World DataBridge :=
  let psdk_config := match psdk_cfg with Some c => c | None => default_psdk_config end in
  let msdk_config := match msdk_cfg with Some c => c | None => default_msdk_config end in
  ret {| psdk_config := psdk_config;
         msdk_config := msdk_config;
         psdk_receiver :=
           PSDKReceiver_init (cfg_device_path psdk_config) (cfg_baud_rate psdk_config);
         msdk_transmitter :=
           MSDKTransmitter_init (cfg_app_id msdk_config) (cfg_app_key msdk_config);
         bridge_thread := None;
         running := false |}.

(** The statements inside the outer [try] of the [while] of
    [_bridge_worker] (l.183-192). *)
Definition bridge_worker_try : M (DataBridge * World) unit :=
  got <- try_except
           (data <- data_queue_get 1%Z ;; ret (Some data))
           (fun e => match e with
                     | Empty => ret None          (* continue *)
                     | _ => raise e
                     end) ;;
  match got with
  | None => ret tt
  | Some data =>
      on_transmitter (MSDKTransmitter_send_signal data) ;;
      data_queue_task_done
  end.

(** One pass through the body of the [while] of [_bridge_worker]
    (l.181-195). *)
Definition bridge_worker_iteration : M (DataBridge * World) unit :=
  try_except bridge_worker_try
             (fun e => logger ERROR (worker_error e)).

Definition exec {S A} (m : M S A) (s : S) : S := snd (m s).

(** One step of the worker thread running [_bridge_worker].  An
    exception leaving the body of the [while] would end the thread. *)
Definition bridge_worker_step (s : DataBridge * World) : DataBridge * World :=
  match bridge_thread (fst s) with
  | Some AtEntry =>
      exec (logger INFO worker_started ;;
            set_self (set_bridge_thread (Some AtLoopTest))) s
  | Some AtLoopTest =>
      if running (fst s)
      then exec (set_self (set_bridge_thread (Some InBody))) s
      else exec (logger INFO worker_stopped ;;
                 set_self (set_bridge_thread (Some Finished))) s
  | Some InBody =>
      match bridge_worker_iteration s with
      | (Return _, s') => exec (set_self (set_bridge_thread (Some AtLoopTest))) s'
      | (Raise _, s') => exec (set_self (set_bridge_thread (Some Finished))) s'
      end
  | Some Finished => s
  | None => s
  end.

Definition DataBridge_start : M (DataBridge * World) bool :=
  started <- on_receiver PSDKReceiver_start ;;
  if negb started then
    logger ERROR receiver_start_failed ;;
    ret false
  else
    started <- on_transmitter MSDKTransmitter_start ;;
    if negb started then
      logger ERROR transmitter_start_failed ;;
      on_receiver PSDKReceiver_stop ;;
      ret false
    else
      set_self (set_running true) ;;
      set_self (set_bridge_thread (Some AtEntry)) ;;
      record_call thread_start ;;
      logger INFO bridge_started ;;
      ret true.

(** [stop], up to and including the call of [join] (l.223-228). *)
Definition DataBridge_stop_worker : M (DataBridge * World) unit :=
  logger INFO bridge_stopping ;;
  set_self (set_running false) ;;
  self <- get_self ;;
  match bridge_thread self with
  | Some t => if is_alive t then record_call (thread_join 5%Z) else ret tt
  | None => ret tt
  end.

(** [stop], after [join] has returned (l.231-234). *)
Definition DataBridge_stop_endpoints : M (DataBridge * World) unit :=
  on_receiver PSDKReceiver_stop ;;
  on_transmitter MSDKTransmitter_stop ;;
  logger INFO bridge_stopped.

Definition DataBridge_stop : M (DataBridge * World) unit :=
  DataBridge_stop_worker ;;
  DataBridge_stop_endpoints.

(** ** The threads together

    The atomic actions of the three threads.  [join] with a timeout
    lets any number of steps of the other threads happen between
    [StopWorker] and [StopEndpoints]. *)
Inductive action : Type :=
| Callback (d : RawItem)      (* the SDK thread calls data_callback(d) *)
| WorkerStep                  (* the worker thread advances *)
| StopWorker                  (* the main thread runs stop() up to join *)
| StopEndpoints.              (* the main thread finishes stop() *)

Definition step (s : DataBridge * World) (a : action) : DataBridge * World :=
  match a with
  | Callback d => exec (on_receiver (PSDKReceiver_data_callback d)) s
  | WorkerStep => bridge_worker_step s
  | StopWorker => exec DataBridge_stop_worker s
  | StopEndpoints => exec DataBridge_stop_endpoints s
  end.

Definition run (schedule : list action) (s : DataBridge * World) : DataBridge * World :=
  fold_left step schedule s.

(** ** Observations on the history *)

(** The envelope [process_data] builds for [data] when the clock reads [now]. *)
Definition envelope_of (now : Instant) (data : RawItem) : Envelope :=
  {| timestamp := now; payload_data := data; type := "sensor_data" |}.

(** The payloads handed to [send_data], oldest first. *)
Fixpoint sent (h : list call) : list RawItem :=
  match h with
  | [] => []
  | msdk_send_data _ e :: h' => payload_data e :: sent h'
  | _ :: h' => sent h'
  end.

(** The timeouts of the calls of [data_queue.get], oldest first. *)
Fixpoint polls (h : list call) : list seconds :=
  match h with
  | [] => []
  | queue_get t :: h' => t :: polls h'
  | _ :: h' => polls h'
  end.



(** Whether a schedule holds only actions of the SDK thread and of the
    worker thread. *)
Fixpoint background (schedule : list action) : bool :=
  match schedule with
  | [] => true
  | Callback _ :: rest => background rest
  | WorkerStep :: rest => background rest
  | _ :: rest => false
  end.

(** The items the SDK thread pushed during a schedule, oldest first. *)
Fixpoint pushed (schedule : list action) : list RawItem :=
  match schedule with
  | [] => []
  | Callback d :: rest => d :: pushed rest
  | _ :: rest => pushed rest
  end.

(** The three teardown calls of the SDK clients return normally. *)
Definition teardown_returns : Prop :=
  forall (h : list call) (c : handle),
    raises sdk h (psdk_stop_receiving c) = None /\
    raises sdk h (psdk_finalize c) = None /\
    raises sdk h (msdk_finalize c) = None.

(** ** Further observations *)

(** The exceptions recorded by the handler of the worker's loop. *)
Fixpoint worker_errors (l : list (level * message)) : list exn :=
  match l with
  | [] => []
  | (_, worker_error e) :: l' => e :: worker_errors l'
  | _ :: l' => worker_errors l'
  end.

(** Whether a call builds or initialises a client of the SDK. *)
Definition is_connect_call (c : call) : bool :=
  match c with
  | PSDKClient _ _ => true
  | psdk_initialize _ => true
  | MSDKClient _ _ => true
  | msdk_initialize _ => true
  | _ => false
  end.

(** Whether a call goes to a client of the SDK. *)
Definition is_sdk_call (c : call) : bool :=
  match c with
  | time_time => false
  | queue_put _ => false
  | queue_get _ => false
  | queue_task_done => false
  | thread_start => false
  | thread_join _ => false
  | _ => true
  end.

(** No call into the SDK raises. *)
Definition sdk_returns : Prop :=
  forall (h : list call) (c : call), raises sdk h c = None.

(** The counter behind [task_done] covers the queued items. *)
Definition counted (q : Queue) : Prop :=
  List.length (items q) <= unfinished_tasks q.

End Bridge.

Arguments PSDKClient {RawItem Instant} device_path baud_rate.
Arguments psdk_initialize {RawItem Instant} c.
Arguments psdk_register_data_callback {RawItem Instant} c.
Arguments psdk_start_receiving {RawItem Instant} c.
Arguments psdk_stop_receiving {RawItem Instant} c.
Arguments psdk_finalize {RawItem Instant} c.
Arguments MSDKClient {RawItem Instant} app_id app_key.
Arguments msdk_initialize {RawItem Instant} c.
Arguments msdk_send_data {RawItem Instant} c e.
Arguments msdk_finalize {RawItem Instant} c.
Arguments time_time {RawItem Instant}.
Arguments queue_put {RawItem Instant} d.
Arguments queue_get {RawItem Instant} timeout.
Arguments queue_task_done {RawItem Instant}.
Arguments thread_start {RawItem Instant}.
Arguments thread_join {RawItem Instant} timeout.
Arguments psdk_connecting {RawItem} path.
Arguments psdk_connected {RawItem}.
Arguments psdk_connect_failed {RawItem} e.
Arguments psdk_data_received {RawItem} d.
Arguments psdk_started {RawItem}.
Arguments psdk_start_failed {RawItem} e.
Arguments psdk_stopped {RawItem}.
Arguments msdk_initializing {RawItem}.
Arguments msdk_initialized {RawItem}.
Arguments msdk_init_failed {RawItem} e.
Arguments msdk_not_initialized {RawItem}.
Arguments msdk_send_status {RawItem} result.
Arguments msdk_send_failed {RawItem} e.
Arguments msdk_started {RawItem}.
Arguments msdk_stopped {RawItem}.
Arguments worker_started {RawItem}.
Arguments worker_error {RawItem} e.
Arguments worker_stopped {RawItem}.
Arguments receiver_start_failed {RawItem}.
Arguments transmitter_start_failed {RawItem}.
Arguments bridge_started {RawItem}.
Arguments bridge_stopping {RawItem}.
Arguments bridge_stopped {RawItem}.
Arguments Callback {RawItem} d.
Arguments WorkerStep {RawItem}.
Arguments StopWorker {RawItem}.
Arguments StopEndpoints {RawItem}.

(** ** Sample library behaviours, used to run the program on concrete inputs *)

Module Sample.

(** Every SDK call returns, every send is acknowledged. *)
Definition obliging : SDK string Z :=
  {| raises := fun _ _ => None;
     ack := fun _ _ _ => true;
     clock := fun h => Z.of_nat (List.length h) |}.

(** The MSDK client cannot be initialised; the PSDK works. *)
Definition msdk_down : SDK string Z :=
  {| raises := fun _ c => match c with
                          | msdk_initialize _ => Some (SDKError 1)
                          | _ => None
                          end;
     ack := fun _ _ _ => true;
     clock := fun h => Z.of_nat (List.length h) |}.

(** The PSDK device cannot be opened. *)
Definition psdk_down : SDK string Z :=
  {| raises := fun _ c => match c with
                          | PSDKClient _ _ => Some (SDKError 2)
                          | _ => None
                          end;
     ack := fun _ _ _ => true;
     clock := fun h => Z.of_nat (List.length h) |}.

(** Sends of the payload "A" are refused (not acknowledged), sends of
    the payload "C" raise; everything else succeeds. *)
Definition picky : SDK string Z :=
  {| raises := fun _ c => match c with
                          | msdk_send_data _ e =>
                              if String.eqb (payload_data e) "C" then Some (SDKError 3) else None
                          | _ => None
                          end;
     ack := fun _ _ e => negb (String.eqb (payload_data e) "A");
     clock := fun h => Z.of_nat (List.length h) |}.

Definition world0 : World string Z := module_init string Z.

Definition receiver0 : PSDKReceiver := PSDKReceiver_init "/dev/ttyUSB0" 115200.

Definition transmitter0 : MSDKTransmitter := MSDKTransmitter_init "your_app_id" "your_app_key".

(** A receiver and a transmitter as [start] leaves them. *)
Definition receiver_on : PSDKReceiver :=
  {| device_path := "/dev/ttyUSB0"; baud_rate := 115200;
     psdk_client := Some 0; psdk_running := true |}.

Definition transmitter_on : MSDKTransmitter :=
  {| app_id := "your_app_id"; app_key := "your_app_key";
     msdk_client := Some 3; msdk_running := true |}.

(** A bridge as its constructor leaves it, and one as [start] leaves
    it once the worker has reached the test of its loop. *)
Definition bridge_idle : DataBridge :=
  {| psdk_config := default_psdk_config;
     msdk_config := default_msdk_config;
     psdk_receiver := receiver0;
     msdk_transmitter := transmitter0;
     bridge_thread := None;
     running := false |}.

Definition bridge_on : DataBridge :=
  {| psdk_config := default_psdk_config;
     msdk_config := default_msdk_config;
     psdk_receiver := receiver_on;
     msdk_transmitter := transmitter_on;
     bridge_thread := Some AtLoopTest;
     running := true |}.

(** The same bridge with its worker inside the body of the loop. *)
Definition bridge_in_body : DataBridge :=
  {| psdk_config := default_psdk_config;
     msdk_config := default_msdk_config;
     psdk_receiver := receiver_on;
     msdk_transmitter := transmitter_on;
     bridge_thread := Some InBody;
     running := true |}.

(** Three items wait in the queue. *)
Definition world_abc : World string Z :=
  {| data_queue := {| items := ["A"; "B"; "C"]; unfinished_tasks := 3 |};
     trace := [];
     log := [] |}.


(** The MSDK client cannot be initialised and the PSDK client's
    [stop_receiving] raises; everything else succeeds. *)
Definition teardown_fails : SDK string Z :=
  {| raises := fun _ c => match c with
                          | msdk_initialize _ => Some (SDKError 1)
                          | psdk_stop_receiving _ => Some (SDKError 6)
                          | _ => None
                          end;
     ack := fun _ _ _ => true;
     clock := fun h => Z.of_nat (List.length h) |}.

(** The PSDK client is built, but its [initialize] raises. *)
Definition psdk_init_fails : SDK string Z :=
  {| raises := fun _ c => match c with
                          | psdk_initialize _ => Some (SDKError 4)
                          | _ => None
                          end;
     ack := fun _ _ _ => true;
     clock := fun h => Z.of_nat (List.length h) |}.

(** The PSDK client accepts the callback, but [start_receiving] raises. *)
Definition psdk_deaf : SDK string Z :=
  {| raises := fun _ c => match c with
                          | psdk_start_receiving _ => Some (SDKError 5)
                          | _ => None
                          end;
     ack := fun _ _ _ => true;
     clock := fun h => Z.of_nat (List.length h) |}.

End Sample.

(** * Properties *)

(** Unfolds the monad and the primitives. *)
Ltac unfold_monad :=
  cbv beta iota zeta delta
    [bind ret raise try_except get_self set_self get_world set_world
     record_call enabled logger deref sdk_call sdk_new sdk_send_data time_now
     data_queue_put data_queue_get data_queue_task_done exec
     on_receiver on_transmitter fst snd].

(** Splits on the next answer of the library. *)
Ltac split_raises :=
  match goal with
  | |- context [match raises ?s ?h ?c with _ => _ end] =>
      let E := fresh "Hraise" in destruct (raises s h c) eqn:E
  end.

(** Closes a conjunction of equations between computed states. *)
Ltac close_run :=
  repeat (split; [reflexivity|]); cbn; rewrite <- ?app_assoc;
  first [reflexivity | split; reflexivity].

Section Properties.

Variables RawItem Instant : Type.
Variable sdk : SDK RawItem Instant.

Local Abbreviation world := (World RawItem Instant).

(** ** The endpoints' [stop] *)

Lemma PSDKReceiver_stop_clears_running (rx : PSDKReceiver) (w : world) :
  psdk_client (fst (exec (PSDKReceiver_stop sdk) (rx, w))) = None \/
  psdk_running (fst (exec (PSDKReceiver_stop sdk) (rx, w))) = false.
Proof.
  destruct rx as [p b [c|] [|]]; unfold PSDKReceiver_stop; unfold_monad; cbn;
    repeat split_raises; cbn; auto.
Qed.

Lemma PSDKReceiver_stop_idle (rx : PSDKReceiver) (w : world) :
  psdk_client rx = None \/ psdk_running rx = false ->
  PSDKReceiver_stop sdk (rx, w) = (Return tt, (rx, w)).
Proof.
  destruct rx as [p b [c|] [|]]; cbn; intros [H|H]; try discriminate; reflexivity.
Qed.

Lemma MSDKTransmitter_stop_clears_running (tx : MSDKTransmitter) (w : world) :
  msdk_client (fst (exec (MSDKTransmitter_stop sdk) (tx, w))) = None \/
  msdk_running (fst (exec (MSDKTransmitter_stop sdk) (tx, w))) = false.
Proof.
  destruct tx as [p b [c|] [|]]; unfold MSDKTransmitter_stop; unfold_monad; cbn;
    repeat split_raises; cbn; auto.
Qed.

Lemma MSDKTransmitter_stop_idle (tx : MSDKTransmitter) (w : world) :
  msdk_client tx = None \/ msdk_running tx = false ->
  MSDKTransmitter_stop sdk (tx, w) = (Return tt, (tx, w)).
Proof.
  destruct tx as [p b [c|] [|]]; cbn; intros [H|H]; try discriminate; reflexivity.
Qed.

(** C8.  [stop] on an endpoint that is not started (no client, or
    [running] false) returns without touching the endpoint, the queue,
    the library or the log; and whatever the first [stop] did, even
    when an SDK call raised inside it, a second [stop] right after it
    returns normally and changes nothing.  This holds for the receiver
    and for the transmitter. *)
Theorem endpoint_stop_safety :
  (forall (rx : PSDKReceiver) (w : world),
      psdk_client rx = None \/ psdk_running rx = false ->
      PSDKReceiver_stop sdk (rx, w) = (Return tt, (rx, w))) /\
  (forall (tx : MSDKTransmitter) (w : world),
      msdk_client tx = None \/ msdk_running tx = false ->
      MSDKTransmitter_stop sdk (tx, w) = (Return tt, (tx, w))) /\
  (forall (rx : PSDKReceiver) (w : world),
      let s1 := exec (PSDKReceiver_stop sdk) (rx, w) in
      PSDKReceiver_stop sdk s1 = (Return tt, s1)) /\
  (forall (tx : MSDKTransmitter) (w : world),
      let s1 := exec (MSDKTransmitter_stop sdk) (tx, w) in
      MSDKTransmitter_stop sdk s1 = (Return tt, s1)).
Proof.
  repeat split.
  - apply PSDKReceiver_stop_idle.
  - apply MSDKTransmitter_stop_idle.
  - intros rx w s1.
    pose proof (PSDKReceiver_stop_clears_running rx w) as H.
    fold s1 in H. destruct s1 as [rx1 w1]. now apply PSDKReceiver_stop_idle.
  - intros tx w s1.
    pose proof (MSDKTransmitter_stop_clears_running tx w) as H.
    fold s1 in H. destruct s1 as [tx1 w1]. now apply MSDKTransmitter_stop_idle.
Qed.

(** ** The transmitter's [send_signal] *)

Lemma send_signal_no_client (tx : MSDKTransmitter) (data : RawItem) (w : world) :
  msdk_client tx = None ->
  MSDKTransmitter_send_signal sdk data (tx, w) =
  (Return false,
   (tx, {| data_queue := data_queue w;
           trace := trace w;
           log := log w ++ [(ERROR, msdk_not_initialized)] |})).
Proof.
  intros H. unfold MSDKTransmitter_send_signal. unfold_monad. now rewrite H.
Qed.

Lemma send_signal_with_client (tx : MSDKTransmitter) (c : handle) (data : RawItem) (w : world) :
  msdk_client tx = Some c ->
  let e := envelope_of (clock sdk (trace w)) data in
  let h := trace w ++ [time_time] in
  MSDKTransmitter_send_signal sdk data (tx, w) =
  match raises sdk h (msdk_send_data c e) with
  | None =>
      (Return (ack sdk h c e),
       (tx, {| data_queue := data_queue w;
               trace := h ++ [msdk_send_data c e];
               log := log w |}))
  | Some x =>
      (Return false,
       (tx, {| data_queue := data_queue w;
               trace := h ++ [msdk_send_data c e];
               log := log w ++ [(ERROR, msdk_send_failed x)] |}))
  end.
Proof.
  intros H e h. subst e h.
  destruct tx as [i k o r]. cbn in H. subst o.
  unfold MSDKTransmitter_send_signal, MSDKTransmitter_process_data, envelope_of.
  unfold_monad. cbn. now split_raises.
Qed.

(** C3.  On a transmitter that holds a client, [process_data] answers
    the envelope whose timestamp is the clock's reading at that moment,
    whose payload is the item itself and whose type is "sensor_data";
    [send_signal] hands exactly this envelope to the client's
    [send_data], once, and when [send_data] returns, [send_signal]
    returns the client's answer. *)
Theorem envelope_construction (tx : MSDKTransmitter) (c : handle) (data : RawItem) (w : world) :
  msdk_client tx = Some c ->
  let e := {| timestamp := clock sdk (trace w);
              payload_data := data;
              type := "sensor_data" |} in
  let h := trace w ++ [time_time] in
  MSDKTransmitter_process_data sdk data (tx, w) =
    (Return e, (tx, {| data_queue := data_queue w; trace := h; log := log w |})) /\
  trace (snd (exec (MSDKTransmitter_send_signal sdk data) (tx, w))) =
    h ++ [msdk_send_data c e] /\
  (raises sdk h (msdk_send_data c e) = None ->
   fst (MSDKTransmitter_send_signal sdk data (tx, w)) = Return (ack sdk h c e)).
Proof.
  intros H e h. split; [reflexivity|].
  pose proof (send_signal_with_client tx data w H) as L.
  cbv zeta in L. unfold envelope_of in L. fold e in L. fold h in L.
  unfold exec. rewrite L.
  destruct (raises sdk h (msdk_send_data c e)); cbn;
    (split; [reflexivity | intros E; first [discriminate E | reflexivity]]).
Qed.

(** C10.  [send_signal] always returns a boolean and never raises, in
    every state of the transmitter and for every item: it answers
    [False] when there is no client, and [False] when the client's
    [send_data] raises; the transmitter itself is left as it was. *)
Theorem send_signal_never_raises (tx : MSDKTransmitter) (data : RawItem) (w : world) :
  exists (b : bool) (w' : world),
    MSDKTransmitter_send_signal sdk data (tx, w) = (Return b, (tx, w')) /\
    (msdk_client tx = None -> b = false) /\
    (forall (c : handle) (x : exn),
        msdk_client tx = Some c ->
        raises sdk (trace w ++ [time_time])
          (msdk_send_data c (envelope_of (clock sdk (trace w)) data)) = Some x ->
        b = false).
Proof.
  destruct (msdk_client tx) as [c|] eqn:Hc.
  - pose proof (send_signal_with_client tx data w Hc) as H. cbv zeta in H.
    destruct (raises sdk (trace w ++ [time_time])
                (msdk_send_data c (envelope_of (clock sdk (trace w)) data))) as [x|] eqn:Hr.
    + eexists; eexists; split; [exact H|]. split; [discriminate|reflexivity].
    + eexists; eexists; split; [exact H|]. split; [discriminate|].
      intros c' x' Hc'. injection Hc' as <-. rewrite Hr. discriminate.
  - eexists; eexists; split; [exact (send_signal_no_client tx data w Hc)|].
    split; [reflexivity|discriminate].
Qed.

(** ** The receiver's [start] *)

Lemma PSDKReceiver_connect_returns (rx : PSDKReceiver) (w : world) :
  exists (connected : bool) (rx1 : PSDKReceiver) (w1 : world) (new : list (call RawItem Instant)),
    PSDKReceiver_connect sdk (rx, w) = (Return connected, (rx1, w1)) /\
    psdk_running rx1 = psdk_running rx /\
    data_queue w1 = data_queue w /\
    trace w1 = trace w ++ new /\
    forall c, In c new ->
              c = PSDKClient (device_path rx) (baud_rate rx) \/
              c = psdk_initialize (List.length (trace w)).
Proof.
  destruct rx as [p r o u].
  unfold PSDKReceiver_connect. unfold_monad. cbn.
  repeat split_raises; cbn.
  - do 3 eexists. exists [PSDKClient p r]. split; [reflexivity|]. cbn.
    repeat split. intros c [Hc|[]]; auto.
  - do 3 eexists. exists [PSDKClient p r; psdk_initialize (List.length (trace w))].
    split; [reflexivity|]. cbn. repeat split.
    + now rewrite <- app_assoc.
    + intros c [Hc|[Hc|[]]]; auto.
  - do 3 eexists. exists [PSDKClient p r; psdk_initialize (List.length (trace w))].
    split; [reflexivity|]. cbn. repeat split.
    + now rewrite <- app_assoc.
    + intros c [Hc|[Hc|[]]]; auto.
Qed.

Lemma PSDKReceiver_start_true (rx rx1 : PSDKReceiver) (w w1 : world) :
  PSDKReceiver_start sdk (rx, w) = (Return true, (rx1, w1)) ->
  exists c, psdk_client rx1 = Some c /\ psdk_running rx1 = true.
Proof.
  destruct rx as [p r [c|] u];
    unfold PSDKReceiver_start, PSDKReceiver_start_receiving, PSDKReceiver_connect;
    unfold_monad; cbn;
    repeat (split_raises; cbn);
    intros H; inversion H; subst; cbn; eauto.
Qed.

(** C6, as the code has it.  [start] does not require a connected
    receiver.  On a receiver that holds a client it goes straight to
    registering the callback and starting reception.  On a receiver
    that holds no client it first runs [connect] itself: when that
    [connect] fails, [start] returns [False] in the state [connect]
    left, so that nothing was registered, reception did not begin and
    [running] is as before; when that [connect] succeeds, [start] goes
    on to register the callback and start reception. *)
Theorem receiver_start_connects_first (rx : PSDKReceiver) (w : world) :
  (forall c : handle,
      psdk_client rx = Some c ->
      PSDKReceiver_start sdk (rx, w) = PSDKReceiver_start_receiving sdk (rx, w)) /\
  (psdk_client rx = None ->
   exists (connected : bool) (rx1 : PSDKReceiver) (w1 : world),
     PSDKReceiver_connect sdk (rx, w) = (Return connected, (rx1, w1)) /\
     if connected
     then PSDKReceiver_start sdk (rx, w) = PSDKReceiver_start_receiving sdk (rx1, w1)
     else PSDKReceiver_start sdk (rx, w) = (Return false, (rx1, w1)) /\
          psdk_running rx1 = psdk_running rx /\
          exists new, trace w1 = trace w ++ new /\
                      forall c, ~ In (psdk_register_data_callback c) new /\
                                ~ In (psdk_start_receiving c) new).
Proof.
  split.
  { intros c Hsome. unfold PSDKReceiver_start, bind, get_self. cbn [fst].
    now rewrite Hsome. }
  intros Hnone.
  destruct (PSDKReceiver_connect_returns rx w)
    as (connected & rx1 & w1 & new & Hconn & Hrun & _ & Htrace & Hnew).
  exists connected, rx1, w1. split; [exact Hconn|].
  assert (Hstart : PSDKReceiver_start sdk (rx, w) =
                   if negb connected then (Return false, (rx1, w1))
                   else PSDKReceiver_start_receiving sdk (rx1, w1)).
  { unfold PSDKReceiver_start, bind, get_self. cbn [fst]. rewrite Hnone, Hconn.
    now destruct connected. }
  destruct connected; cbn in Hstart; [exact Hstart|].
  split; [exact Hstart|]. split; [exact Hrun|].
  exists new. split; [exact Htrace|].
  intros c; split; intros Hin; destruct (Hnew _ Hin); discriminate.
Qed.

(** ** [DataBridge.start] *)

Lemma MSDKTransmitter_start_true (tx tx1 : MSDKTransmitter) (w w1 : world) :
  MSDKTransmitter_start sdk (tx, w) = (Return true, (tx1, w1)) ->
  exists c, msdk_client tx1 = Some c /\ msdk_running tx1 = true.
Proof.
  destruct tx as [i k [c|] u];
    unfold MSDKTransmitter_start, MSDKTransmitter_connect;
    unfold_monad; cbn;
    repeat (split_raises; cbn);
    intros H; inversion H; subst; cbn; eauto.
Qed.

(** Only a [start] that answers [True] leaves a running bridge: both
    endpoints hold a client and are running, the flag is set and the
    worker thread has been created. *)
Lemma DataBridge_start_true (b b' : DataBridge) (w w' : world) :
  DataBridge_start sdk (b, w) = (Return true, (b', w')) ->
  running b' = true /\
  bridge_thread b' = Some AtEntry /\
  (exists cr, psdk_client (psdk_receiver b') = Some cr /\
              psdk_running (psdk_receiver b') = true) /\
  (exists ct, msdk_client (msdk_transmitter b') = Some ct /\
              msdk_running (msdk_transmitter b') = true).
Proof.
  unfold DataBridge_start. unfold_monad.
  destruct (PSDKReceiver_start sdk (psdk_receiver b, w)) as [[[|]|x] [rx1 w1]] eqn:Hrx;
    cbn -[MSDKTransmitter_start PSDKReceiver_stop]; try discriminate.
  destruct (MSDKTransmitter_start sdk (msdk_transmitter b, w1)) as [[[|]|x] [tx1 w2]] eqn:Htx;
    cbn -[PSDKReceiver_stop]; try discriminate.
  - intros H. injection H as <- <-. cbn.
    split; [reflexivity|]. split; [reflexivity|].
    split; [exact (PSDKReceiver_start_true _ _ Hrx)|exact (MSDKTransmitter_start_true _ _ Htx)].
  - destruct (PSDKReceiver_stop sdk _) as [[[]|x] [rx2 w3]]; discriminate.
Qed.

(** C2, as the code has it.  When the receiver's [start] succeeds and
    the transmitter's [start] then fails, the bridge's [start] calls
    the receiver's [stop] before it finishes: the receiver's [running]
    is cleared and [stop_receiving] is called on its client.  No thread
    is started and the bridge's [running] flag and thread attribute are
    left as they were.  [stop] has no handler, so the result depends on
    the teardown calls: when [stop_receiving] and [finalize] both
    return, [start] returns [False]; when [stop_receiving] raises,
    [finalize] is not called and the exception leaves [start]; when
    [finalize] raises, that exception leaves [start]. *)
Theorem startup_rollback (b : DataBridge) (w : world)
    (rx1 : PSDKReceiver) (w1 : world) (tx2 : MSDKTransmitter) (w2 : world) :
  PSDKReceiver_start sdk (psdk_receiver b, w) = (Return true, (rx1, w1)) ->
  MSDKTransmitter_start sdk (msdk_transmitter b, w1) = (Return false, (tx2, w2)) ->
  exists (c : handle) (o : outcome bool) (b' : DataBridge) (w' : world),
    psdk_client rx1 = Some c /\
    DataBridge_start sdk (b, w) = (o, (b', w')) /\
    psdk_running (psdk_receiver b') = false /\
    running b' = running b /\
    bridge_thread b' = bridge_thread b /\
    match raises sdk (trace w2) (psdk_stop_receiving c) with
    | Some x =>
        o = Raise x /\
        trace w' = trace w2 ++ [psdk_stop_receiving c]
    | None =>
        trace w' = trace w2 ++ [psdk_stop_receiving c; psdk_finalize c] /\
        match raises sdk (trace w2 ++ [psdk_stop_receiving c]) (psdk_finalize c) with
        | Some x => o = Raise x
        | None => o = Return false
        end
    end.
Proof.
  intros Hrx Htx.
  destruct (PSDKReceiver_start_true _ _ Hrx) as (c & Hc & Hrun).
  destruct rx1 as [p r o u]. cbn in Hc, Hrun. subst o u.
  exists c.
  unfold DataBridge_start. unfold_monad. rewrite Hrx.
  cbn -[MSDKTransmitter_start PSDKReceiver_stop]. rewrite Htx. cbn.
  unfold PSDKReceiver_stop. unfold_monad. cbn.
  repeat (split_raises; cbn);
    do 3 eexists; (split; [reflexivity|]); (split; [reflexivity|]); cbn;
    rewrite <- ?app_assoc; repeat split; reflexivity.
Qed.

(** ** The worker *)

Lemma sent_app (h1 h2 : list (call RawItem Instant)) :
  sent (h1 ++ h2) = sent h1 ++ sent h2.
Proof.
  induction h1 as [|c h1 IH]; [reflexivity|].
  destruct c; cbn; now rewrite ?IH.
Qed.

(** What one pass through the loop body does when the transmitter
    holds a client. *)
Lemma bridge_worker_iteration_with_client (b : DataBridge) (w : world) (c : handle) :
  msdk_client (msdk_transmitter b) = Some c ->
  exists w' : world,
    bridge_worker_iteration sdk (b, w) = (Return tt, (b, w')) /\
    match items (data_queue w) with
    | [] =>
        data_queue w' = data_queue w /\
        trace w' = trace w ++ [queue_get 1%Z] /\
        log w' = log w
    | d :: rest =>
        let h := trace w ++ [queue_get 1%Z; time_time] in
        let e := envelope_of (clock sdk (trace w ++ [queue_get 1%Z])) d in
        let entries := match raises sdk h (msdk_send_data c e) with
                       | Some x => [(ERROR, msdk_send_failed x)]
                       | None => []
                       end in
        items (data_queue w') = rest /\
        trace w' = h ++ [msdk_send_data c e; queue_task_done] /\
        (log w' = log w ++ entries \/
         log w' = log w ++ entries ++ [(ERROR, worker_error ValueError)])
    end.
Proof.
  intros Hc.
  destruct b as [pc mc rx [i k o r] th run]. cbn in Hc. subst o.
  destruct w as [[its u] tr lg].
  unfold bridge_worker_iteration, bridge_worker_try, MSDKTransmitter_send_signal,
    MSDKTransmitter_process_data, envelope_of.
  destruct its as [|d rest]; unfold_monad; cbn.
  - eexists. split; [reflexivity|]. cbn. auto.
  - rewrite <- !app_assoc. cbn.
    split_raises; destruct u as [|n]; cbn;
      (eexists; split; [reflexivity|]); cbn;
      rewrite <- ?app_assoc, ?app_nil_r; cbn; auto.
Qed.

(** An exception leaving the statements of the [try] is caught by the
    handler, logged, and the pass ends normally. *)
Lemma bridge_worker_iteration_catches (s : DataBridge * world) :
  bridge_worker_iteration sdk s =
  match bridge_worker_try sdk s with
  | (Return _, s') => (Return tt, s')
  | (Raise x, s') =>
      (Return tt,
       (fst s', {| data_queue := data_queue (snd s');
                   trace := trace (snd s');
                   log := log (snd s') ++ [(ERROR, worker_error x)] |}))
  end.
Proof.
  unfold bridge_worker_iteration, try_except.
  destruct (bridge_worker_try sdk s) as [[[]|x] s']; reflexivity.
Qed.

Lemma bridge_worker_iteration_returns (s : DataBridge * world) :
  fst (bridge_worker_iteration sdk s) = Return tt.
Proof.
  rewrite bridge_worker_iteration_catches.
  now destruct (bridge_worker_try sdk s) as [[[]|x] s'].
Qed.

Lemma polls_app (h1 h2 : list (call RawItem Instant)) :
  polls (h1 ++ h2) = polls h1 ++ polls h2.
Proof.
  induction h1 as [|c h1 IH]; [reflexivity|].
  destruct c; cbn; now rewrite ?IH.
Qed.

(** One pass through the loop body in any state: it returns, leaves
    the bridge object as it is, polls the queue once with a timeout of
    one second, and hands at most one item to [send_data]. *)
Lemma bridge_worker_iteration_any (b : DataBridge) (w : world) :
  exists (w' : world) (new : list (call RawItem Instant)),
    bridge_worker_iteration sdk (b, w) = (Return tt, (b, w')) /\
    trace w' = trace w ++ queue_get 1%Z :: new /\
    polls new = [] /\
    List.length (sent new) <= 1.
Proof.
  destruct b as [pc mc rx [i k o r] th run].
  destruct w as [[its u] tr lg].
  unfold bridge_worker_iteration, bridge_worker_try, MSDKTransmitter_send_signal,
    MSDKTransmitter_process_data.
  destruct its as [|d rest]; [|destruct o as [c|]]; unfold_monad; cbn.
  - do 2 eexists. split; [reflexivity|]. cbn.
    split; [reflexivity|]. split; [reflexivity|]. cbn. lia.
  - split_raises; destruct u as [|n]; cbn;
      (do 2 eexists; split; [reflexivity|]); cbn;
      rewrite <- ?app_assoc; cbn;
      (split; [reflexivity|]); cbn; (split; [reflexivity|]); cbn; lia.
  - destruct u as [|n]; cbn;
      (do 2 eexists; split; [reflexivity|]); cbn;
      rewrite <- ?app_assoc; cbn;
      (split; [reflexivity|]); cbn; (split; [reflexivity|]); cbn; lia.
Qed.

(** ** The steps of the threads, one by one *)

Lemma step_callback (d : RawItem) (b : DataBridge) (w : world) :
  step sdk (b, w) (Callback d) =
  (b, {| data_queue := {| items := items (data_queue w) ++ [d];
                          unfinished_tasks := S (unfinished_tasks (data_queue w)) |};
         trace := trace w ++ [queue_put d];
         log := log w |}).
Proof. now destruct b. Qed.

Lemma step_stop_worker (b : DataBridge) (w : world) :
  step sdk (b, w) StopWorker =
  (set_running false b,
   {| data_queue := data_queue w;
      trace := trace w ++ match bridge_thread b with
                          | Some t => if is_alive t then [thread_join 5%Z] else []
                          | None => []
                          end;
      log := log w ++ [(INFO, bridge_stopping)] |}).
Proof.
  destruct b as [pc mc rx tx [[| | |]|] run]; cbn; now rewrite ?app_nil_r.
Qed.


Lemma step_worker (b : DataBridge) (w : world) :
  exists (w' : world) (new : list (call RawItem Instant)),
    step sdk (b, w) WorkerStep =
      (set_bridge_thread
         match bridge_thread b with
         | Some AtEntry => Some AtLoopTest
         | Some AtLoopTest => if running b then Some InBody else Some Finished
         | Some InBody => Some AtLoopTest
         | Some Finished => Some Finished
         | None => None
         end b, w') /\
    trace w' = trace w ++ new /\
    match bridge_thread b with
    | Some InBody => bridge_worker_iteration sdk (b, w) = (Return tt, (b, w')) /\
                     polls new = [1%Z]
    | _ => data_queue w' = data_queue w /\ new = []
    end /\
    List.length (sent new) <= 1.
Proof.
  destruct (bridge_thread b) as [[| | |]|] eqn:Hth; cbn [step]; unfold bridge_worker_step;
    cbn [fst]; rewrite Hth.
  - eexists. exists []. cbn. rewrite app_nil_r. repeat split. lia.
  - destruct (running b); eexists; exists []; cbn; rewrite app_nil_r; repeat split; lia.
  - destruct (bridge_worker_iteration_any b w) as (w' & new & Hit & Htr & Hpolls & Hsent).
    rewrite Hit. exists w', (queue_get 1%Z :: new). cbn.
    rewrite Hpolls. repeat split; auto.
  - exists w, []. destruct b; cbn in *; subst. rewrite app_nil_r. repeat split. cbn; lia.
  - exists w, []. destruct b; cbn in *; subst. rewrite app_nil_r. repeat split. cbn; lia.
Qed.

Lemma step_stop_endpoints (b : DataBridge) (w : world) :
  exists (rx' : PSDKReceiver) (tx' : MSDKTransmitter) (w' : world)
         (new : list (call RawItem Instant)),
    step sdk (b, w) StopEndpoints =
      (set_msdk_transmitter tx' (set_psdk_receiver rx' b), w') /\
    data_queue w' = data_queue w /\
    trace w' = trace w ++ new /\
    sent new = [] /\
    polls new = [] /\
    msdk_client tx' = msdk_client (msdk_transmitter b) /\
    (psdk_client rx' = None \/ psdk_running rx' = false).
Proof.
  destruct b as [pc mc [p r [cr|] [|]] [i k [ct|] [|]] th run];
    cbn [step]; unfold DataBridge_stop_endpoints, PSDKReceiver_stop, MSDKTransmitter_stop;
    unfold_monad; cbn;
    repeat (split_raises; cbn);
    match goal with
    | |- exists rx' tx' w' new, (?B, ?W) = _ /\ _ =>
        exists (psdk_receiver B), (msdk_transmitter B), W
    end;
    match goal with
    | |- exists new, (_, {| data_queue := _; trace := ((?t ++ ?l1) ++ ?l2) ++ ?l3; log := _ |}) = _ /\ _ =>
        exists (l1 ++ l2 ++ l3)
    | |- exists new, (_, {| data_queue := _; trace := (?t ++ ?l1) ++ ?l2; log := _ |}) = _ /\ _ =>
        exists (l1 ++ l2)
    | |- exists new, (_, {| data_queue := _; trace := ?t ++ ?l; log := _ |}) = _ /\ _ =>
        exists l
    | |- _ => exists []
    end;
    (split; [reflexivity|]); cbn; rewrite <- ?app_assoc, ?app_nil_r; cbn; auto 10.
Qed.

(** ** First in, first out *)

Lemma step_fifo (a : action RawItem) (b : DataBridge) (w : world) (c : handle) :
  msdk_client (msdk_transmitter b) = Some c ->
  msdk_client (msdk_transmitter (fst (step sdk (b, w) a))) = Some c /\
  sent (trace (snd (step sdk (b, w) a))) ++ items (data_queue (snd (step sdk (b, w) a))) =
  sent (trace w) ++ items (data_queue w) ++ pushed [a].
Proof.
  intros Hc. destruct a as [d| | |].
  - rewrite step_callback. cbn. rewrite sent_app. cbn.
    now rewrite app_nil_r.
  - destruct (step_worker b w) as (w' & new & Hstep & Htr & Hcase & _).
    rewrite Hstep. cbn [fst snd pushed]. split; [exact Hc|].
    rewrite app_nil_r.
    destruct (bridge_thread b) as [[| | |]|];
      try (destruct Hcase as [Hq ->]; rewrite app_nil_r in Htr; now rewrite Htr, Hq).
    destruct Hcase as [Hit _].
    destruct (bridge_worker_iteration_with_client b w Hc) as (w2 & Hit2 & Hspec).
    rewrite Hit in Hit2. injection Hit2 as <-.
    destruct (items (data_queue w)) as [|d rest] eqn:Hitems.
    + destruct Hspec as (Hq & -> & _). rewrite Hq, Hitems, sent_app. cbn.
      now rewrite !app_nil_r.
    + cbv zeta in Hspec. destruct Hspec as (-> & -> & _).
      rewrite !sent_app. cbn. now rewrite app_nil_r, <- app_assoc.
  - rewrite step_stop_worker. cbn. split; [exact Hc|].
    rewrite sent_app, app_nil_r.
    destruct (bridge_thread b) as [[| | |]|]; cbn; now rewrite app_nil_r.
  - destruct (step_stop_endpoints b w) as (rx' & tx' & w' & new & -> & Hq & Htr & Hs & _ & Hcl & _).
    cbn. rewrite Hq, Htr, sent_app, Hs, !app_nil_r. split; congruence.
Qed.

Lemma pushed_app (s1 s2 : list (action RawItem)) :
  pushed (s1 ++ s2) = pushed s1 ++ pushed s2.
Proof.
  induction s1 as [|a s1 IH]; [reflexivity|].
  destruct a; cbn; now rewrite ?IH.
Qed.

Lemma run_app (s1 s2 : list (action RawItem)) (s : DataBridge * world) :
  run sdk (s1 ++ s2) s = run sdk s2 (run sdk s1 s).
Proof. apply fold_left_app. Qed.

(** Along every schedule, what has been handed to [send_data] followed
    by what is still queued is what was there at the beginning
    followed by what has been pushed since. *)
Lemma run_fifo (schedule : list (action RawItem)) (b : DataBridge) (w : world) (c : handle) :
  msdk_client (msdk_transmitter b) = Some c ->
  msdk_client (msdk_transmitter (fst (run sdk schedule (b, w)))) = Some c /\
  sent (trace (snd (run sdk schedule (b, w)))) ++
  items (data_queue (snd (run sdk schedule (b, w)))) =
  sent (trace w) ++ items (data_queue w) ++ pushed schedule.
Proof.
  revert b w. induction schedule as [|a rest IH]; intros b w Hc.
  - cbn. now rewrite app_nil_r.
  - destruct (step_fifo a b w Hc) as [Hc1 Hstep].
    change (run sdk (a :: rest) (b, w)) with (run sdk rest (step sdk (b, w) a)).
    destruct (step sdk (b, w) a) as [b1 w1]. cbn [fst snd] in *.
    destruct (IH b1 w1 Hc1) as [Hc2 Hrun]. split; [exact Hc2|].
    rewrite Hrun. change (a :: rest) with ([a] ++ rest).
    rewrite pushed_app. rewrite app_assoc, Hstep. now rewrite <- !app_assoc.
Qed.

Lemma run_callbacks (ds : list RawItem) (b : DataBridge) (w : world) :
  fst (run sdk (map Callback ds) (b, w)) = b /\
  items (data_queue (snd (run sdk (map Callback ds) (b, w)))) = items (data_queue w) ++ ds /\
  sent (trace (snd (run sdk (map Callback ds) (b, w)))) = sent (trace w).
Proof.
  revert w. induction ds as [|d ds IH]; intros w.
  - cbn. now rewrite app_nil_r.
  - cbn [map]. change (run sdk (Callback d :: map Callback ds) (b, w))
      with (run sdk (map Callback ds) (step sdk (b, w) (Callback d))).
    rewrite step_callback.
    destruct (IH {| data_queue := {| items := items (data_queue w) ++ [d];
                                     unfinished_tasks := S (unfinished_tasks (data_queue w)) |};
                    trace := trace w ++ [queue_put d];
                    log := log w |})
      as (Hb & Hq & Hs).
    rewrite Hb, Hq, Hs. cbn. rewrite sent_app, <- app_assoc. cbn.
    now rewrite app_nil_r.
Qed.

(** A running worker at the test of its loop takes two steps per
    queued item and hands each of them, oldest first, to [send_data],
    whatever the sends answer. *)
Lemma run_relay (ds : list RawItem) (b : DataBridge) (w : world) (c : handle) :
  msdk_client (msdk_transmitter b) = Some c ->
  bridge_thread b = Some AtLoopTest ->
  running b = true ->
  items (data_queue w) = ds ->
  let s' := run sdk (repeat WorkerStep (2 * List.length ds)) (b, w) in
  fst s' = b /\
  items (data_queue (snd s')) = [] /\
  sent (trace (snd s')) = sent (trace w) ++ ds.
Proof.
  revert w. induction ds as [|d ds IH]; intros w Hc Hth Hrun Hq s'; subst s'.
  - cbn. now rewrite app_nil_r.
  - replace (2 * List.length (d :: ds)) with (S (S (2 * List.length ds))) by (cbn; lia).
    cbn [repeat].
    change (run sdk (WorkerStep :: WorkerStep :: repeat WorkerStep (2 * List.length ds)) (b, w))
      with (run sdk (repeat WorkerStep (2 * List.length ds))
              (step sdk (step sdk (b, w) WorkerStep) WorkerStep)).
    destruct (step_worker b w) as (w1 & new1 & Hstep1 & Htr1 & Hcase1 & _).
    rewrite Hth in Hstep1, Hcase1. rewrite Hrun in Hstep1. destruct Hcase1 as [Hq1 ->].
    rewrite app_nil_r in Htr1. rewrite Hstep1.
    destruct (step_worker (set_bridge_thread (Some InBody) b) w1)
      as (w2 & new2 & Hstep2 & Htr2 & Hcase2 & _).
    cbn [bridge_thread set_bridge_thread] in Hstep2, Hcase2.
    destruct Hcase2 as [Hit _]. rewrite Hstep2.
    assert (Hb : set_bridge_thread (Some AtLoopTest) (set_bridge_thread (Some InBody) b) = b).
    { destruct b; cbn in *; now subst. }
    rewrite Hb.
    destruct (bridge_worker_iteration_with_client (set_bridge_thread (Some InBody) b) w1 (c:=c))
      as (w3 & Hit3 & Hspec); [exact Hc|].
    rewrite Hit in Hit3. injection Hit3 as <-.
    rewrite Hq1, Hq in Hspec. cbv zeta in Hspec. destruct Hspec as (Hq2 & Htr3 & _).
    destruct (IH w2 Hc Hth Hrun Hq2) as (Hb' & Hq' & Hs').
    rewrite Hb', Hq', Hs'. repeat split.
    rewrite Htr3, Htr1, !sent_app. cbn. now rewrite app_nil_r, <- app_assoc.
Qed.

(** ** The [running] flag and the life of the worker *)





(** C1.  The hand-off queue is first in, first out, without
    duplication or loss.  For a bridge whose transmitter holds a
    client: (1) along every schedule of the threads, the items handed
    to [send_data] so far, followed by the items still queued, are the
    items that were there at the beginning followed by the items pushed
    by the callback, in push order; (2) after any list of items is
    pushed onto the empty queue, a running worker hands exactly these
    items to [send_data], in push order, and leaves the queue empty;
    (3) pushes append at the back of the queue and never fail; (4)
    [get] returns the item at the front and removes it. *)
Theorem handoff_queue_fifo (b : DataBridge) (w : world) (c : handle) :
  msdk_client (msdk_transmitter b) = Some c ->
  (forall schedule : list (action RawItem),
      let s' := run sdk schedule (b, w) in
      sent (trace (snd s')) ++ items (data_queue (snd s')) =
      sent (trace w) ++ items (data_queue w) ++ pushed schedule) /\
  (forall ds : list RawItem,
      bridge_thread b = Some AtLoopTest ->
      running b = true ->
      items (data_queue w) = [] ->
      let s' := run sdk (map Callback ds ++ repeat WorkerStep (2 * List.length ds)) (b, w) in
      sent (trace (snd s')) = sent (trace w) ++ ds /\
      items (data_queue (snd s')) = []) /\
  (forall ds : list RawItem,
      items (data_queue (snd (run sdk (map Callback ds) (b, w)))) =
      items (data_queue w) ++ ds) /\
  (forall (d : RawItem) (rest : list RawItem),
      items (data_queue w) = d :: rest ->
      fst (data_queue_get 1%Z (b, w)) = Return d /\
      items (data_queue (snd (snd (data_queue_get 1%Z (b, w))))) = rest).
Proof.
  intros Hc. split; [|split; [|split]].
  - intros schedule s'. apply (run_fifo schedule b w Hc).
  - intros ds Hth Hrun Hempty s'. subst s'. rewrite run_app.
    destruct (run_callbacks ds b w) as (Hb & Hq & Hs).
    destruct (run sdk (map Callback ds) (b, w)) as [b1 w1]. cbn [fst snd] in *. subst b1.
    rewrite Hempty in Hq. cbn in Hq.
    destruct (run_relay (ds:=ds) b w1 Hc Hth Hrun Hq) as (_ & Hdrained & Hsent).
    split; [now rewrite Hsent, Hs|exact Hdrained].
  - intros ds. apply run_callbacks.
  - intros d rest Hq. unfold data_queue_get. unfold_monad. cbn. now rewrite Hq.
Qed.

(** C5, as the code has it.  A running worker whose queue holds the
    items [ds] hands every one of them to [send_data], in order and
    once each, whatever the earlier sends answered or raised; the queue
    is empty afterwards (nothing is put back) and the worker is still
    at the test of its loop with [running] true.  A [send_signal] that
    answers [False] leaves the queue as it is.  It is logged only when
    [send_data] raised: the ERROR record of that exception is added.
    When [send_data] itself answered [False], the status goes to
    [logger.debug], which the configured level discards, and the log is
    left as it was. *)
Theorem soft_failure_containment (b : DataBridge) (w : world) (c : handle) (ds : list RawItem) :
  msdk_client (msdk_transmitter b) = Some c ->
  bridge_thread b = Some AtLoopTest ->
  running b = true ->
  items (data_queue w) = ds ->
  let s' := run sdk (repeat WorkerStep (2 * List.length ds)) (b, w) in
  sent (trace (snd s')) = sent (trace w) ++ ds /\
  items (data_queue (snd s')) = [] /\
  bridge_thread (fst s') = Some AtLoopTest /\
  running (fst s') = true /\
  forall (d : RawItem) (w0 : world),
    let r := MSDKTransmitter_send_signal sdk d (msdk_transmitter b, w0) in
    let h := trace w0 ++ [time_time] in
    let e := envelope_of (clock sdk (trace w0)) d in
    data_queue (snd (snd r)) = data_queue w0 /\
    (fst r = Return false ->
     match raises sdk h (msdk_send_data c e) with
     | Some x => log (snd (snd r)) = log w0 ++ [(ERROR, msdk_send_failed x)]
     | None => ack sdk h c e = false /\ log (snd (snd r)) = log w0
     end).
Proof.
  intros Hc Hth Hrun Hq s'.
  destruct (run_relay (ds:=ds) b w Hc Hth Hrun Hq) as (Hb & Hempty & Hsent).
  fold s' in Hb, Hempty, Hsent.
  rewrite Hb. do 4 (split; [now auto|]).
  intros d w0 r h e. subst r h e.
  pose proof (send_signal_with_client (msdk_transmitter b) d w0 Hc) as L.
  cbv zeta in L. rewrite L.
  destruct (raises sdk _ _) as [x|]; cbn; (split; [reflexivity|]); intros Hfalse.
  - reflexivity.
  - injection Hfalse as ->. split; reflexivity.
Qed.


(** ** [DataBridge.stop] *)

Lemma stop_endpoints_started (b : DataBridge) (w : world) (cr ct : handle) :
  psdk_client (psdk_receiver b) = Some cr ->
  psdk_running (psdk_receiver b) = true ->
  msdk_client (msdk_transmitter b) = Some ct ->
  msdk_running (msdk_transmitter b) = true ->
  teardown_returns sdk ->
  DataBridge_stop_endpoints sdk (b, w) =
  (Return tt,
   (set_msdk_transmitter (set_msdk_running false (msdk_transmitter b))
      (set_psdk_receiver (set_psdk_running false (psdk_receiver b)) b),
    {| data_queue := data_queue w;
       trace := trace w ++ [psdk_stop_receiving cr; psdk_finalize cr; msdk_finalize ct];
       log := log w ++ [(INFO, psdk_stopped); (INFO, msdk_stopped); (INFO, bridge_stopped)] |})).
Proof.
  intros Hcr Hrr Hct Hrt Hsdk.
  destruct b as [pc mc [p r ocr rr] [i k oct rt] th run]. cbn in Hcr, Hrr, Hct, Hrt. subst.
  unfold DataBridge_stop_endpoints, PSDKReceiver_stop, MSDKTransmitter_stop.
  unfold_monad. cbn.
  repeat (split_raises; cbn);
    try (now rewrite <- !app_assoc);
    exfalso;
    match goal with
    | H : raises sdk ?h (_ ?c) = Some _ |- _ =>
        destruct (Hsdk h c) as (H1 & H2 & H3); congruence
    end.
Qed.


(** ** The queue and the bridges *)

(** C9, as the code has it.  The queue is created, empty, when the
    module is loaded, not when a bridge is built: the constructor
    leaves the whole shared state, the queue included, as it finds it
    and only builds an idle bridge; so an item pushed through the
    receiver of one bridge is relayed by the worker of any other
    bridge. *)
Theorem queue_is_module_level :
  items (data_queue (module_init RawItem Instant)) = [] /\
  (forall (pc : option psdk_config_t) (mc : option msdk_config_t) (w : world),
      exists b : DataBridge,
        DataBridge_init pc mc w = (Return b, w) /\
        running b = false /\
        bridge_thread b = None) /\
  (forall (one other : DataBridge) (w : world) (d : RawItem) (c : handle),
      msdk_client (msdk_transmitter other) = Some c ->
      bridge_thread other = Some InBody ->
      items (data_queue w) = [] ->
      let w1 := snd (step sdk (one, w) (Callback d)) in
      sent (trace (snd (step sdk (other, w1) WorkerStep))) = sent (trace w) ++ [d]).
Proof.
  split; [reflexivity|]. split.
  - intros pc mc w. eexists. split; [reflexivity|]. now cbn.
  - intros one other w d c Hc Hth Hq w1.
    destruct (step_fifo WorkerStep other w1 Hc) as [_ Hfifo].
    destruct (step_worker other w1) as (w2 & new & Hstep & _ & Hcase & _).
    rewrite Hth in Hcase. destruct Hcase as [Hit _].
    destruct (bridge_worker_iteration_with_client other w1 Hc) as (w3 & Hit3 & Hspec).
    rewrite Hit in Hit3. injection Hit3 as <-.
    rewrite Hstep in *. cbn [fst snd] in *.
    subst w1. rewrite step_callback in *. cbn [snd data_queue items trace] in *.
    rewrite Hq in *. cbn in Hspec. destruct Hspec as (Hq2 & _).
    rewrite Hq2 in Hfifo. rewrite sent_app in Hfifo. cbn in Hfifo.
    now rewrite !app_nil_r in Hfifo.
Qed.

End Properties.

(** * The theorems at concrete inputs *)

Import Sample.

Lemma handoff_queue_fifo_witness :
  msdk_client (msdk_transmitter bridge_on) = Some 3 /\
  sent (trace (snd (run picky (map Callback ["A"; "B"; "C"] ++ repeat WorkerStep 6)
                      (bridge_on, world0)))) = ["A"; "B"; "C"] /\
  items (data_queue (snd (run picky (map Callback ["A"; "B"; "C"] ++ repeat WorkerStep 6)
                            (bridge_on, world0)))) = [].
Proof.
  split; [reflexivity|].
  destruct (handoff_queue_fifo picky bridge_on world0 (c:=3) eq_refl) as (_ & H & _).
  exact (H ["A"; "B"; "C"] eq_refl eq_refl eq_refl).
Defined.

Lemma startup_rollback_witness :
  fst (PSDKReceiver_start msdk_down (psdk_receiver bridge_idle, world0)) = Return true /\
  fst (MSDKTransmitter_start msdk_down
         (msdk_transmitter bridge_idle,
          snd (snd (PSDKReceiver_start msdk_down (psdk_receiver bridge_idle, world0))))) =
    Return false /\
  exists (b' : DataBridge) (w' : World string Z),
    DataBridge_start msdk_down (bridge_idle, world0) = (Return false, (b', w')) /\
    psdk_running (psdk_receiver b') = false /\
    running b' = false /\
    bridge_thread b' = None.
Proof.
  split; [reflexivity|]. split; [reflexivity|].
  destruct (startup_rollback msdk_down bridge_idle world0
              (rx1:=fst (snd (PSDKReceiver_start msdk_down (psdk_receiver bridge_idle, world0))))
              (w1:=snd (snd (PSDKReceiver_start msdk_down (psdk_receiver bridge_idle, world0))))
              (tx2:=fst (snd (MSDKTransmitter_start msdk_down
                                (msdk_transmitter bridge_idle,
                                 snd (snd (PSDKReceiver_start msdk_down
                                             (psdk_receiver bridge_idle, world0)))))))
              (w2:=snd (snd (MSDKTransmitter_start msdk_down
                               (msdk_transmitter bridge_idle,
                                snd (snd (PSDKReceiver_start msdk_down
                                            (psdk_receiver bridge_idle, world0)))))))
              eq_refl eq_refl)
    as (c & o & b' & w' & _ & Hstart & Hrx & Hrun & Hth & Ho).
  exists b', w'. cbn in Ho. destruct Ho as (_ & ->).
  split; [exact Hstart|]. split; [exact Hrx|]. split; [exact Hrun|exact Hth].
Defined.

Lemma envelope_construction_witness :
  msdk_client transmitter_on = Some 3 /\
  MSDKTransmitter_process_data obliging "A" (transmitter_on, world0) =
    (Return {| timestamp := 0%Z; payload_data := "A"; type := "sensor_data" |},
     (transmitter_on, {| data_queue := data_queue world0; trace := [time_time]; log := [] |})) /\
  fst (MSDKTransmitter_send_signal obliging "A" (transmitter_on, world0)) = Return true.
Proof.
  split; [reflexivity|].
  destruct (envelope_construction obliging transmitter_on (c:=3) "A" world0 eq_refl)
    as (H1 & _ & H3).
  split; [exact H1|exact (H3 eq_refl)].
Defined.


Lemma soft_failure_containment_witness :
  msdk_client (msdk_transmitter bridge_on) = Some 3 /\
  bridge_thread bridge_on = Some AtLoopTest /\
  running bridge_on = true /\
  fst (MSDKTransmitter_send_signal picky "A" (transmitter_on, world0)) = Return false /\
  sent (trace (snd (run picky (repeat WorkerStep 6) (bridge_on, world_abc)))) =
    ["A"; "B"; "C"] /\
  items (data_queue (snd (run picky (repeat WorkerStep 6) (bridge_on, world_abc)))) = [] /\
  bridge_thread (fst (run picky (repeat WorkerStep 6) (bridge_on, world_abc))) =
    Some AtLoopTest.
Proof.
  do 4 (split; [reflexivity|]).
  destruct (soft_failure_containment picky bridge_on world_abc (c:=3) (ds:=["A"; "B"; "C"])
              eq_refl eq_refl eq_refl eq_refl) as (H1 & H2 & H3 & _).
  split; [exact H1|]. split; [exact H2|exact H3].
Defined.

Lemma receiver_start_connects_first_witness :
  psdk_client receiver0 = None /\
  fst (PSDKReceiver_start psdk_down (receiver0, world0)) = Return false /\
  trace (snd (snd (PSDKReceiver_start psdk_down (receiver0, world0)))) =
    [PSDKClient "/dev/ttyUSB0" 115200].
Proof.
  split; [reflexivity|].
  destruct (proj2 (receiver_start_connects_first psdk_down receiver0 world0) eq_refl)
    as (connected & rx1 & w1 & Hconn & Hcase).
  destruct connected; [discriminate Hconn|].
  destruct Hcase as (Hstart & _). split; reflexivity.
Defined.


Lemma endpoint_stop_safety_witness :
  PSDKReceiver_stop obliging (receiver0, world0) = (Return tt, (receiver0, world0)) /\
  MSDKTransmitter_stop obliging (transmitter0, world0) = (Return tt, (transmitter0, world0)) /\
  fst (PSDKReceiver_stop obliging (exec (PSDKReceiver_stop obliging) (receiver_on, world0))) =
    Return tt /\
  fst (MSDKTransmitter_stop obliging
         (exec (MSDKTransmitter_stop obliging) (transmitter_on, world0))) = Return tt.
Proof.
  destruct (endpoint_stop_safety obliging) as (H1 & H2 & H3 & H4).
  split; [apply H1; now left|]. split; [apply H2; now left|].
  split; [now rewrite (H3 receiver_on world0)|now rewrite (H4 transmitter_on world0)].
Defined.

Lemma queue_is_module_level_witness :
  msdk_client (msdk_transmitter bridge_in_body) = Some 3 /\
  sent (trace (snd (step obliging
                      (bridge_in_body,
                       snd (step obliging (bridge_idle, world0) (Callback "stale")))
                      WorkerStep))) = ["stale"].
Proof.
  split; [reflexivity|].
  destruct (queue_is_module_level obliging) as (_ & _ & H).
  exact (H bridge_idle bridge_in_body world0 "stale" 3 eq_refl eq_refl eq_refl).
Defined.

Lemma send_signal_never_raises_witness :
  msdk_client transmitter0 = None /\
  exists w' : World string Z,
    MSDKTransmitter_send_signal obliging "A" (transmitter0, world0) =
      (Return false, (transmitter0, w')).
Proof.
  split; [reflexivity|].
  destruct (send_signal_never_raises obliging transmitter0 "A" world0)
    as (b & w' & Hsend & Hnone & _).
  exists w'. now rewrite <- (Hnone eq_refl).
Defined.

(** * Where the code departs from the specification *)

(** C6, as stated, fails: [start] on a receiver that was never
    connected connects it and succeeds, and reception has begun. *)
Lemma receiver_start_unconnected_succeeds :
  psdk_client receiver0 = None /\
  PSDKReceiver_start obliging (receiver0, world0) =
    (Return true,
     ({| device_path := "/dev/ttyUSB0"; baud_rate := 115200;
         psdk_client := Some 0; psdk_running := true |},
      {| data_queue := data_queue world0;
         trace := [PSDKClient "/dev/ttyUSB0" 115200; psdk_initialize 0;
                   psdk_register_data_callback 0; psdk_start_receiving 0];
         log := [(INFO, psdk_connecting "/dev/ttyUSB0"); (INFO, psdk_connected);
                 (INFO, psdk_started)] |})).
Proof. split; reflexivity. Qed.

(** C9, as stated, fails: a bridge built after an item was pushed
    through another bridge's receiver does not start with an empty
    queue; once started, its worker relays that item. *)
Lemma fresh_bridge_inherits_queued_item :
  let w1 := snd (step obliging (bridge_on, world0) (Callback "stale")) in
  let started := snd (DataBridge_start obliging (bridge_idle, w1)) in
  DataBridge_init None None w1 = (Return bridge_idle, w1) /\
  items (data_queue w1) = ["stale"] /\
  fst (DataBridge_start obliging (bridge_idle, w1)) = Return true /\
  sent (trace (snd (run obliging [WorkerStep; WorkerStep; WorkerStep] started))) =
    ["stale"].
Proof. cbv zeta. repeat split; vm_compute; reflexivity. Qed.

(** C2, as stated, fails: the receiver starts, the transmitter does
    not, and the [stop_receiving] of the rollback raises.  [start] then
    does not return a failure result: the exception leaves it, and the
    receiver's [finalize] is never called. *)
Lemma rollback_raises_when_teardown_raises :
  fst (PSDKReceiver_start teardown_fails (psdk_receiver bridge_idle, world0)) = Return true /\
  fst (MSDKTransmitter_start teardown_fails
         (msdk_transmitter bridge_idle,
          snd (snd (PSDKReceiver_start teardown_fails (psdk_receiver bridge_idle, world0))))) =
    Return false /\
  fst (DataBridge_start teardown_fails (bridge_idle, world0)) = Raise (SDKError 6) /\
  trace (snd (snd (DataBridge_start teardown_fails (bridge_idle, world0)))) =
    [PSDKClient "/dev/ttyUSB0" 115200; psdk_initialize 0;
     psdk_register_data_callback 0; psdk_start_receiving 0;
     MSDKClient "your_app_id" "your_app_key"; msdk_initialize 4;
     psdk_stop_receiving 0].
Proof. repeat split; vm_compute; reflexivity. Qed.

(** C5, as stated, fails: a send to which the client answers [False]
    makes [send_signal] answer [False] and leaves no record in the
    log, neither in [send_signal] nor in the worker that relays the
    item. *)
Lemma unacknowledged_send_is_not_logged :
  fst (MSDKTransmitter_send_signal picky "A" (transmitter_on, world0)) = Return false /\
  log (snd (snd (MSDKTransmitter_send_signal picky "A" (transmitter_on, world0)))) =
    log world0 /\
  sent (trace (snd (run picky [WorkerStep; WorkerStep] (bridge_on, world_abc)))) = ["A"] /\
  log (snd (run picky [WorkerStep; WorkerStep] (bridge_on, world_abc))) = log world_abc.
Proof. repeat split; vm_compute; reflexivity. Qed.


(** * Further properties of the endpoints and of the bridge *)

Section MoreProperties.

Variables RawItem Instant : Type.
Variable sdk : SDK RawItem Instant.

Local Abbreviation world := (World RawItem Instant).

(** ** [connect] *)

(** X1.  [PSDKReceiver.connect] never raises.  It answers [True]
    exactly when both the constructor of the client and its
    [initialize] return.  The receiver's client is replaced as soon as
    the constructor returns, also when [initialize] then raises;
    [running], the queue and everything else are left alone. *)
Theorem PSDKReceiver_connect_outcome (rx : PSDKReceiver) (w : world) :
  let open := PSDKClient (device_path rx) (baud_rate rx) in
  let c := List.length (trace w) in
  exists w1 : world,
    PSDKReceiver_connect sdk (rx, w) =
      (Return match raises sdk (trace w) open with
              | Some _ => false
              | None => match raises sdk (trace w ++ [open]) (psdk_initialize c) with
                        | Some _ => false
                        | None => true
                        end
              end,
       (match raises sdk (trace w) open with
        | Some _ => rx
        | None => set_psdk_client (Some c) rx
        end, w1)) /\
    trace w1 = trace w ++ open :: match raises sdk (trace w) open with
                                  | Some _ => []
                                  | None => [psdk_initialize c]
                                  end /\
    data_queue w1 = data_queue w.
Proof.
  intros open c. subst open c.
  unfold PSDKReceiver_connect. unfold_monad. cbn.
  repeat (split_raises; cbn); eexists; (split; [reflexivity|]); cbn;
    rewrite <- ?app_assoc; split; reflexivity.
Qed.

(** X2.  [MSDKTransmitter.connect] never raises.  It answers [True]
    exactly when both the constructor of the client and its
    [initialize] return, and replaces the transmitter's client as soon
    as the constructor returns. *)
Theorem MSDKTransmitter_connect_outcome (tx : MSDKTransmitter) (w : world) :
  let open := MSDKClient (app_id tx) (app_key tx) in
  let c := List.length (trace w) in
  exists w1 : world,
    MSDKTransmitter_connect sdk (tx, w) =
      (Return match raises sdk (trace w) open with
              | Some _ => false
              | None => match raises sdk (trace w ++ [open]) (msdk_initialize c) with
                        | Some _ => false
                        | None => true
                        end
              end,
       (match raises sdk (trace w) open with
        | Some _ => tx
        | None => set_msdk_client (Some c) tx
        end, w1)) /\
    trace w1 = trace w ++ open :: match raises sdk (trace w) open with
                                  | Some _ => []
                                  | None => [msdk_initialize c]
                                  end /\
    data_queue w1 = data_queue w.
Proof.
  intros open c. subst open c.
  unfold MSDKTransmitter_connect. unfold_monad. cbn.
  repeat (split_raises; cbn); eexists; (split; [reflexivity|]); cbn;
    rewrite <- ?app_assoc; split; reflexivity.
Qed.

(** ** [start] and [stop] of the endpoints *)

(** X3.  [PSDKReceiver.start] on a receiver that holds a client does
    not connect: it registers the callback and calls
    [start_receiving].  It answers [True] exactly when both calls
    return.  [running] is set as soon as the registration returns, so
    when [start_receiving] then raises, [start] answers [False] and
    leaves [running] true. *)
Theorem PSDKReceiver_start_connected_outcome (rx : PSDKReceiver) (w : world) (c : handle) :
  psdk_client rx = Some c ->
  let register := psdk_register_data_callback c in
  exists w1 : world,
    PSDKReceiver_start sdk (rx, w) =
      (Return match raises sdk (trace w) register with
              | Some _ => false
              | None => match raises sdk (trace w ++ [register]) (psdk_start_receiving c) with
                        | Some _ => false
                        | None => true
                        end
              end,
       (match raises sdk (trace w) register with
        | Some _ => rx
        | None => set_psdk_running true rx
        end, w1)) /\
    trace w1 = trace w ++ register :: match raises sdk (trace w) register with
                                      | Some _ => []
                                      | None => [psdk_start_receiving c]
                                      end /\
    data_queue w1 = data_queue w.
Proof.
  intros Hc register. subst register.
  destruct rx as [p r o u]. cbn in Hc. subst o.
  unfold PSDKReceiver_start, PSDKReceiver_start_receiving. unfold_monad. cbn.
  repeat (split_raises; cbn); eexists; (split; [reflexivity|]); cbn;
    rewrite <- ?app_assoc; split; reflexivity.
Qed.

(** X4.  A [connect] that fails in [initialize] leaves the receiver
    with a client.  [start] then answers [False], and the next [start]
    does not connect again: it goes straight to registering the
    callback on the client that was never initialised, and makes no
    constructor or [initialize] call. *)
Theorem PSDKReceiver_start_after_failed_initialize
    (rx : PSDKReceiver) (w : world) (x : exn) :
  psdk_client rx = None ->
  raises sdk (trace w) (PSDKClient (device_path rx) (baud_rate rx)) = None ->
  raises sdk (trace w ++ [PSDKClient (device_path rx) (baud_rate rx)])
    (psdk_initialize (List.length (trace w))) = Some x ->
  exists (rx1 : PSDKReceiver) (w1 : world) (ok : bool) (rx2 : PSDKReceiver) (w2 : world)
         (rest : list (call RawItem Instant)),
    PSDKReceiver_start sdk (rx, w) = (Return false, (rx1, w1)) /\
    psdk_client rx1 = Some (List.length (trace w)) /\
    psdk_running rx1 = psdk_running rx /\
    PSDKReceiver_start sdk (rx1, w1) = (Return ok, (rx2, w2)) /\
    trace w2 = trace w1 ++ psdk_register_data_callback (List.length (trace w)) :: rest /\
    forallb (fun c => negb (is_connect_call c)) rest = true.
Proof.
  intros Hnone Hopen Hinit.
  destruct rx as [p r o u]. cbn in Hnone, Hopen, Hinit. subst o.
  unfold PSDKReceiver_start, PSDKReceiver_start_receiving, PSDKReceiver_connect.
  unfold_monad. cbn. rewrite Hopen. cbn. rewrite Hinit. cbn.
  match goal with
  | |- exists rx1 w1 ok rx2 w2 rest, (_, (?R, ?W)) = _ /\ _ => exists R, W
  end.
  cbn. repeat (split_raises; cbn);
    do 3 eexists;
    first [ exists [psdk_start_receiving (List.length (trace w))]; solve [close_run]
          | exists []; solve [close_run] ].
Qed.

(** X5.  [PSDKReceiver.start] never raises: in every state it returns
    a boolean, and it leaves the queue and the receiver's
    configuration alone.  When it answers [True] the receiver holds a
    client, [running] is true, and the last two SDK calls were the
    registration of the callback and [start_receiving] on that
    client. *)
Theorem PSDKReceiver_start_returns (rx : PSDKReceiver) (w : world) :
  exists (ok : bool) (rx1 : PSDKReceiver) (w1 : world),
    PSDKReceiver_start sdk (rx, w) = (Return ok, (rx1, w1)) /\
    data_queue w1 = data_queue w /\
    device_path rx1 = device_path rx /\
    baud_rate rx1 = baud_rate rx /\
    (ok = true ->
     exists (c : handle) (before : list (call RawItem Instant)),
       psdk_client rx1 = Some c /\
       psdk_running rx1 = true /\
       trace w1 = before ++ [psdk_register_data_callback c; psdk_start_receiving c]).
Proof.
  destruct rx as [p r [c|] u];
    unfold PSDKReceiver_start, PSDKReceiver_start_receiving, PSDKReceiver_connect;
    unfold_monad; cbn;
    repeat (split_raises; cbn);
    do 3 eexists; (split; [reflexivity|]); cbn;
    repeat (split; [reflexivity|]);
    intros Hok; try discriminate Hok;
    do 2 eexists; repeat (split; [reflexivity|]);
    symmetry; exact (app_assoc _ [_] [_]).
Qed.

(** X6.  [MSDKTransmitter.start] never raises.  On a transmitter that
    holds a client it makes no SDK call, sets [running] and answers
    [True].  On a transmitter without a client it runs [connect] and
    answers what [connect] answered, setting [running] only when
    [connect] succeeded. *)
Theorem MSDKTransmitter_start_outcome (tx : MSDKTransmitter) (w : world) :
  (forall c : handle,
      msdk_client tx = Some c ->
      MSDKTransmitter_start sdk (tx, w) =
        (Return true,
         (set_msdk_running true tx,
          {| data_queue := data_queue w;
             trace := trace w;
             log := log w ++ [(INFO, msdk_started)] |}))) /\
  (msdk_client tx = None ->
   exists (connected : bool) (tx1 : MSDKTransmitter) (w1 : world),
     MSDKTransmitter_connect sdk (tx, w) = (Return connected, (tx1, w1)) /\
     MSDKTransmitter_start sdk (tx, w) =
       (Return connected,
        (if connected then set_msdk_running true tx1 else tx1,
         {| data_queue := data_queue w1;
            trace := trace w1;
            log := log w1 ++ if connected then [(INFO, msdk_started)] else [] |}))).
Proof.
  split.
  - intros c Hc. destruct tx as [i k o u]. cbn in Hc. subst o. reflexivity.
  - intros Hnone. destruct tx as [i k o u]. cbn in Hnone. subst o.
    unfold MSDKTransmitter_start, MSDKTransmitter_connect. unfold_monad. cbn.
    repeat (split_raises; cbn); do 3 eexists; (split; [reflexivity|]); cbn;
      now rewrite ?app_nil_r.
Qed.

(** X7.  [stop] keeps the client.  So after a [stop], whatever it did,
    a [start] of the receiver does not connect again (it registers the
    callback on the client that was shut down and makes no constructor
    or [initialize] call), and a [start] of the transmitter makes no
    SDK call at all and answers [True]. *)
Theorem start_after_stop_reuses_client :
  (forall (rx : PSDKReceiver) (w : world) (c : handle),
      psdk_client rx = Some c ->
      let s1 := exec (PSDKReceiver_stop sdk) (rx, w) in
      exists (ok : bool) (rx2 : PSDKReceiver) (w2 : world)
             (rest : list (call RawItem Instant)),
        PSDKReceiver_start sdk s1 = (Return ok, (rx2, w2)) /\
        psdk_client rx2 = Some c /\
        trace w2 = trace (snd s1) ++ psdk_register_data_callback c :: rest /\
        forallb (fun c => negb (is_connect_call c)) rest = true) /\
  (forall (tx : MSDKTransmitter) (w : world) (c : handle),
      msdk_client tx = Some c ->
      let s1 := exec (MSDKTransmitter_stop sdk) (tx, w) in
      exists (tx2 : MSDKTransmitter) (w2 : world),
        MSDKTransmitter_start sdk s1 = (Return true, (tx2, w2)) /\
        msdk_client tx2 = Some c /\
        msdk_running tx2 = true /\
        trace w2 = trace (snd s1)).
Proof.
  split.
  - intros rx w c Hc s1. subst s1.
    destruct rx as [p r o [|]]; cbn in Hc; subst o;
      unfold PSDKReceiver_stop, PSDKReceiver_start, PSDKReceiver_start_receiving;
      unfold_monad; cbn;
      repeat (split_raises; cbn);
      do 3 eexists;
      first [ exists [psdk_start_receiving c]; solve [close_run]
            | exists []; solve [close_run] ].
  - intros tx w c Hc s1. subst s1.
    destruct tx as [i k o [|]]; cbn in Hc; subst o;
      unfold MSDKTransmitter_stop, MSDKTransmitter_start;
      unfold_monad; cbn;
      repeat (split_raises; cbn);
      do 2 eexists; repeat split; reflexivity.
Qed.

(** ** [DataBridge.start] and [DataBridge.stop] *)

Lemma PSDKReceiver_start_never_raises (rx : PSDKReceiver) (w : world) :
  exists (ok : bool) (rx1 : PSDKReceiver) (w1 : world),
    PSDKReceiver_start sdk (rx, w) = (Return ok, (rx1, w1)).
Proof.
  destruct rx as [p r [c|] u];
    unfold PSDKReceiver_start, PSDKReceiver_start_receiving, PSDKReceiver_connect;
    unfold_monad; cbn;
    repeat (split_raises; cbn); do 3 eexists; reflexivity.
Qed.

Lemma MSDKTransmitter_start_never_raises (tx : MSDKTransmitter) (w : world) :
  exists (ok : bool) (tx1 : MSDKTransmitter) (w1 : world),
    MSDKTransmitter_start sdk (tx, w) = (Return ok, (tx1, w1)).
Proof.
  destruct tx as [i k [c|] u];
    unfold MSDKTransmitter_start, MSDKTransmitter_connect;
    unfold_monad; cbn;
    repeat (split_raises; cbn); do 3 eexists; reflexivity.
Qed.

(** X8.  [DataBridge.start] runs the receiver's [start] first.  When
    that fails, the bridge's [start] answers [False] at once: the
    transmitter is not touched, the receiver is not stopped and is left
    exactly as its own [start] left it, no thread is created and the
    flag is unchanged.  When both endpoints start, the bridge sets
    [running], creates and starts the worker thread and answers [True].
    In the remaining case, a transmitter that fails to start, it never
    answers [True]. *)
Theorem DataBridge_start_outcome (b : DataBridge) (w : world) :
  exists (receiving : bool) (rx1 : PSDKReceiver) (w1 : world),
    PSDKReceiver_start sdk (psdk_receiver b, w) = (Return receiving, (rx1, w1)) /\
    if negb receiving
    then DataBridge_start sdk (b, w) =
           (Return false,
            (set_psdk_receiver rx1 b,
             {| data_queue := data_queue w1;
                trace := trace w1;
                log := log w1 ++ [(ERROR, receiver_start_failed)] |}))
    else exists (sending : bool) (tx2 : MSDKTransmitter) (w2 : world),
        MSDKTransmitter_start sdk (msdk_transmitter b, w1) = (Return sending, (tx2, w2)) /\
        if sending
        then DataBridge_start sdk (b, w) =
               (Return true,
                ({| psdk_config := psdk_config b;
                    msdk_config := msdk_config b;
                    psdk_receiver := rx1;
                    msdk_transmitter := tx2;
                    bridge_thread := Some AtEntry;
                    running := true |},
                 {| data_queue := data_queue w2;
                    trace := trace w2 ++ [thread_start];
                    log := log w2 ++ [(INFO, bridge_started)] |}))
        else fst (DataBridge_start sdk (b, w)) <> Return true.
Proof.
  destruct (PSDKReceiver_start_never_raises (psdk_receiver b) w) as (receiving & rx1 & w1 & Hrx).
  exists receiving, rx1, w1. split; [exact Hrx|].
  unfold DataBridge_start. unfold_monad. rewrite Hrx.
  destruct receiving; cbn -[MSDKTransmitter_start PSDKReceiver_stop]; [|reflexivity].
  destruct (MSDKTransmitter_start_never_raises (msdk_transmitter b) w1)
    as (sending & tx2 & w2 & Htx).
  exists sending, tx2, w2. split; [exact Htx|].
  rewrite Htx. destruct sending; cbn -[PSDKReceiver_stop]; [reflexivity|].
  destruct (PSDKReceiver_stop sdk _) as [[[]|x] [rx3 w3]]; cbn; discriminate.
Qed.

(** X9.  [DataBridge.stop] on a bridge that has no live worker and
    whose endpoints are not started, such as a bridge fresh from its
    constructor or one whose [start] failed before the receiver ran,
    makes no call to the SDK and no [join]: it clears the flag, writes
    its two log records and returns. *)
Theorem DataBridge_stop_idle (b : DataBridge) (w : world) :
  bridge_thread b = None \/ bridge_thread b = Some Finished ->
  psdk_client (psdk_receiver b) = None \/ psdk_running (psdk_receiver b) = false ->
  msdk_client (msdk_transmitter b) = None \/ msdk_running (msdk_transmitter b) = false ->
  DataBridge_stop sdk (b, w) =
    (Return tt,
     (set_running false b,
      {| data_queue := data_queue w;
         trace := trace w;
         log := log w ++ [(INFO, bridge_stopping); (INFO, bridge_stopped)] |})).
Proof.
  intros Hth Hrx Htx.
  destruct b as [pc mc [p r ocr rr] [i k oct rt] th run]. cbn in Hth, Hrx, Htx.
  unfold DataBridge_stop, DataBridge_stop_worker, DataBridge_stop_endpoints,
    PSDKReceiver_stop, MSDKTransmitter_stop.
  destruct Hth as [->| ->];
    destruct Hrx as [->| ->]; destruct Htx as [->| ->];
    try destruct ocr; try destruct oct; unfold_monad; cbn;
    now rewrite <- ?app_assoc.
Qed.

(** X10.  A second [DataBridge.stop] after one that returned normally
    makes no call to the SDK and returns normally; it leaves the
    bridge and both endpoints as the first one left them, with all
    three [running] flags false.  (It calls [join] again when the
    worker had not returned.) *)
Theorem DataBridge_stop_twice (b : DataBridge) (w : world) :
  fst (DataBridge_stop sdk (b, w)) = Return tt ->
  let s1 := snd (DataBridge_stop sdk (b, w)) in
  exists new : list (call RawItem Instant),
    DataBridge_stop sdk s1 =
      (Return tt,
       (fst s1,
        {| data_queue := data_queue (snd s1);
           trace := trace (snd s1) ++ new;
           log := log (snd s1) ++ [(INFO, bridge_stopping); (INFO, bridge_stopped)] |})) /\
    forallb (fun c => negb (is_sdk_call c)) new = true /\
    running (fst s1) = false /\
    (psdk_client (psdk_receiver (fst s1)) = None \/
     psdk_running (psdk_receiver (fst s1)) = false) /\
    (msdk_client (msdk_transmitter (fst s1)) = None \/
     msdk_running (msdk_transmitter (fst s1)) = false).
Proof.
  destruct b as [pc mc [p r [cr|] [|]] [i k [ct|] [|]] [[| | |]|] run];
    unfold DataBridge_stop, DataBridge_stop_worker, DataBridge_stop_endpoints,
      PSDKReceiver_stop, MSDKTransmitter_stop;
    unfold_monad; cbn;
    repeat (split_raises; cbn);
    intros Hret; try discriminate Hret;
    first [ exists [thread_join 5%Z]; split; [now rewrite <- ?app_assoc|]; cbn; auto 6
          | exists []; split; [now rewrite <- ?app_assoc, ?app_nil_r|]; cbn; auto 6 ].
Qed.

(** ** The queue's counter and the worker's handler *)

Lemma worker_errors_app (l1 l2 : list (level * message RawItem)) :
  worker_errors (l1 ++ l2) = worker_errors l1 ++ worker_errors l2.
Proof.
  induction l1 as [|[l m] l1 IH]; [reflexivity|].
  destruct m; cbn; now rewrite ?IH.
Qed.

Lemma bridge_worker_iteration_counted (b : DataBridge) (w : world) :
  counted (data_queue w) ->
  exists w' : world,
    bridge_worker_iteration sdk (b, w) = (Return tt, (b, w')) /\
    counted (data_queue w') /\
    unfinished_tasks (data_queue w') + List.length (items (data_queue w)) =
    unfinished_tasks (data_queue w) + List.length (items (data_queue w')) /\
    worker_errors (log w') = worker_errors (log w).
Proof.
  unfold counted.
  destruct b as [pc mc rx [i k o r] th run].
  destruct w as [[its u] tr lg]. cbn [data_queue items unfinished_tasks log].
  intros Hc.
  unfold bridge_worker_iteration, bridge_worker_try, MSDKTransmitter_send_signal,
    MSDKTransmitter_process_data.
  destruct its as [|d rest]; [|destruct u as [|n]; [cbn in Hc; lia|destruct o as [c|]]];
    unfold_monad; cbn.
  - eexists. split; [reflexivity|]. cbn. auto.
  - split_raises; cbn; (eexists; split; [reflexivity|]); cbn in *;
      rewrite ?worker_errors_app; cbn; rewrite ?app_nil_r; repeat split; lia.
  - (eexists; split; [reflexivity|]); cbn in *;
      rewrite ?worker_errors_app; cbn; rewrite ?app_nil_r; repeat split; lia.
Qed.

Lemma step_stop_endpoints_log (b : DataBridge) (w : world) :
  worker_errors (log (snd (step sdk (b, w) StopEndpoints))) = worker_errors (log w).
Proof.
  destruct b as [pc mc [p r [cr|] [|]] [i k [ct|] [|]] th run];
    cbn [step]; unfold DataBridge_stop_endpoints, PSDKReceiver_stop, MSDKTransmitter_stop;
    unfold_monad; cbn;
    repeat (split_raises; cbn);
    rewrite ?worker_errors_app; cbn; now rewrite ?app_nil_r.
Qed.

Lemma step_counted (a : action RawItem) (b : DataBridge) (w : world) :
  counted (data_queue w) ->
  counted (data_queue (snd (step sdk (b, w) a))) /\
  unfinished_tasks (data_queue (snd (step sdk (b, w) a))) + List.length (items (data_queue w)) =
  unfinished_tasks (data_queue w) + List.length (items (data_queue (snd (step sdk (b, w) a)))) /\
  worker_errors (log (snd (step sdk (b, w) a))) = worker_errors (log w).
Proof.
  intros Hc. destruct a as [d| | |].
  - rewrite step_callback. unfold counted in *. cbn.
    rewrite length_app. cbn. repeat split; lia.
  - destruct (bridge_thread b) as [[| | |]|] eqn:Hth;
      cbn [step]; unfold bridge_worker_step; cbn [fst]; rewrite Hth.
    + cbn. rewrite worker_errors_app. cbn. rewrite app_nil_r. auto.
    + destruct (running b); cbn; rewrite ?worker_errors_app; cbn; rewrite ?app_nil_r; auto.
    + destruct (bridge_worker_iteration_counted b w Hc) as (w' & -> & H1 & H2 & H3).
      cbn. auto.
    + cbn. auto.
    + cbn. auto.
  - rewrite step_stop_worker. cbn. rewrite worker_errors_app. cbn. rewrite app_nil_r. auto.
  - destruct (step_stop_endpoints sdk b w) as (rx' & tx' & w' & new & Hstep & Hq & _).
    pose proof (step_stop_endpoints_log b w) as Hlog.
    rewrite Hstep in *. cbn [snd] in *. rewrite Hq. auto.
Qed.

(** X11.  The counter behind [task_done] follows the queue.  Starting
    from a queue whose counter covers its items (as the empty queue of
    a fresh module does), along every schedule of callbacks, worker
    steps and stops the counter keeps covering the items and moves in
    step with their number; so [task_done] never raises and the
    handler of the worker's loop never has anything to log. *)
Theorem queue_counter_invariant (schedule : list (action RawItem)) (b : DataBridge) (w : world) :
  counted (data_queue w) ->
  let s' := run sdk schedule (b, w) in
  counted (data_queue (snd s')) /\
  unfinished_tasks (data_queue (snd s')) + List.length (items (data_queue w)) =
  unfinished_tasks (data_queue w) + List.length (items (data_queue (snd s'))) /\
  worker_errors (log (snd s')) = worker_errors (log w).
Proof.
  revert b w. induction schedule as [|a rest IH]; intros b w Hc s'; subst s'.
  - cbn. auto.
  - change (run sdk (a :: rest) (b, w)) with (run sdk rest (step sdk (b, w) a)).
    destruct (step_counted a b w Hc) as (Hc1 & Hn1 & Hl1).
    destruct (step sdk (b, w) a) as [b1 w1]. cbn [fst snd] in *.
    destruct (IH b1 w1 Hc1) as (Hc2 & Hn2 & Hl2).
    split; [exact Hc2|]. split; [lia|congruence].
Qed.

(** ** The worker with nothing to do *)

(** X12.  A running worker that finds the queue empty only polls: [n]
    turns of its loop add [n] calls of [get] with a timeout of one
    second to the history and change nothing else, neither the bridge,
    nor the queue, nor the log; no call to the SDK is made. *)
Theorem idle_worker_only_polls (n : nat) (b : DataBridge) (w : world) :
  bridge_thread b = Some AtLoopTest ->
  running b = true ->
  items (data_queue w) = [] ->
  run sdk (repeat WorkerStep (2 * n)) (b, w) =
    (b, {| data_queue := data_queue w;
           trace := trace w ++ repeat (queue_get 1%Z) n;
           log := log w |}).
Proof.
  intros Hth Hrun. revert w. induction n as [|n IH]; intros w Hq.
  - cbn. rewrite app_nil_r. now destruct w.
  - replace (2 * S n) with (S (S (2 * n))) by lia.
    cbn [repeat].
    change (run sdk (WorkerStep :: WorkerStep :: repeat WorkerStep (2 * n)) (b, w))
      with (run sdk (repeat WorkerStep (2 * n))
              (step sdk (step sdk (b, w) WorkerStep) WorkerStep)).
    assert (Hstep : step sdk (step sdk (b, w) WorkerStep) WorkerStep =
                    (b, {| data_queue := data_queue w;
                           trace := trace w ++ [queue_get 1%Z];
                           log := log w |})).
    { destruct b as [pc mc rx tx th run]. cbn in Hth, Hrun. subst th run.
      cbn [step]. unfold bridge_worker_step. cbn.
      unfold bridge_worker_step. cbn.
      unfold bridge_worker_iteration, bridge_worker_try. unfold_monad. cbn.
      rewrite Hq. reflexivity. }
    rewrite Hstep, IH by exact Hq. cbn. now rewrite <- app_assoc.
Qed.

(** ** Once the worker has returned *)

(** X13.  The callback does not look at any flag.  Once the worker has
    returned (or when none was ever started), along every schedule
    every pushed item is appended to the queue and stays there:
    nothing is handed to [send_data], nothing polls the queue, and the
    thread stays as it is. *)
Theorem pushes_after_worker_returned
    (schedule : list (action RawItem)) (b : DataBridge) (w : world) :
  bridge_thread b = None \/ bridge_thread b = Some Finished ->
  let s' := run sdk schedule (b, w) in
  items (data_queue (snd s')) = items (data_queue w) ++ pushed schedule /\
  sent (trace (snd s')) = sent (trace w) /\
  polls (trace (snd s')) = polls (trace w) /\
  bridge_thread (fst s') = bridge_thread b.
Proof.
  revert b w. induction schedule as [|a rest IH]; intros b w Hth s'; subst s'.
  - cbn. now rewrite app_nil_r.
  - change (run sdk (a :: rest) (b, w)) with (run sdk rest (step sdk (b, w) a)).
    assert (Hstep : bridge_thread (fst (step sdk (b, w) a)) = bridge_thread b /\
                    items (data_queue (snd (step sdk (b, w) a))) =
                      items (data_queue w) ++ pushed [a] /\
                    sent (trace (snd (step sdk (b, w) a))) = sent (trace w) /\
                    polls (trace (snd (step sdk (b, w) a))) = polls (trace w)).
    { destruct a as [d| | |].
      - rewrite step_callback. cbn. rewrite sent_app, polls_app. cbn.
        now rewrite !app_nil_r.
      - destruct (step_worker sdk b w) as (w' & new & -> & Htr & Hcase & _).
        cbn [fst snd pushed]. rewrite app_nil_r.
        destruct Hth as [Hth|Hth]; rewrite Hth in *; destruct Hcase as [Hq ->];
          rewrite app_nil_r in Htr; rewrite Htr, Hq; cbn; auto.
      - rewrite step_stop_worker. cbn. rewrite sent_app, polls_app, !app_nil_r.
        destruct Hth as [Hth|Hth]; rewrite Hth; cbn; now rewrite !app_nil_r.
      - destruct (step_stop_endpoints sdk b w)
          as (rx' & tx' & w' & new & -> & Hq & Htr & Hs & Hp & _).
        cbn. rewrite Hq, Htr, sent_app, polls_app, Hs, Hp, !app_nil_r. auto. }
    destruct Hstep as (Hth1 & Hq1 & Hs1 & Hp1).
    destruct (step sdk (b, w) a) as [b1 w1]. cbn [fst snd] in *.
    assert (Hth' : bridge_thread b1 = None \/ bridge_thread b1 = Some Finished)
      by (rewrite Hth1; exact Hth).
    destruct (IH b1 w1 Hth') as (Hq2 & Hs2 & Hp2 & Hth2).
    rewrite Hq2, Hs2, Hp2, Hth2, Hq1, Hs1, Hp1, Hth1.
    change (a :: rest) with ([a] ++ rest). rewrite pushed_app, <- app_assoc. auto.
Qed.

(** X14.  The worker and the callback never touch the endpoints, the
    configuration or the [running] flag: along every schedule of
    worker steps and callbacks, the bridge object changes in nothing
    but the position of its worker thread. *)
Theorem background_changes_only_thread
    (schedule : list (action RawItem)) (b : DataBridge) (w : world) :
  background schedule = true ->
  fst (run sdk schedule (b, w)) =
  set_bridge_thread (bridge_thread (fst (run sdk schedule (b, w)))) b.
Proof.
  revert b w. induction schedule as [|a rest IH]; intros b w Hbg.
  - cbn. now destruct b.
  - change (run sdk (a :: rest) (b, w)) with (run sdk rest (step sdk (b, w) a)).
    destruct a as [d| | |]; cbn in Hbg; try discriminate.
    + rewrite step_callback. now apply IH.
    + destruct (step_worker sdk b w) as (w' & new & -> & _).
      rewrite (IH _ w' Hbg) at 1. reflexivity.
Qed.

(** ** A whole session *)

Lemma DataBridge_start_fresh (b : DataBridge) (w : world) :
  sdk_returns sdk ->
  psdk_client (psdk_receiver b) = None ->
  msdk_client (msdk_transmitter b) = None ->
  let n := List.length (trace w) in
  DataBridge_start sdk (b, w) =
    (Return true,
     ({| psdk_config := psdk_config b;
         msdk_config := msdk_config b;
         psdk_receiver := set_psdk_running true (set_psdk_client (Some n) (psdk_receiver b));
         msdk_transmitter :=
           set_msdk_running true (set_msdk_client (Some (n + 4)) (msdk_transmitter b));
         bridge_thread := Some AtEntry;
         running := true |},
      {| data_queue := data_queue w;
         trace := trace w ++
                  [PSDKClient (device_path (psdk_receiver b)) (baud_rate (psdk_receiver b));
                   psdk_initialize n;
                   psdk_register_data_callback n;
                   psdk_start_receiving n;
                   MSDKClient (app_id (msdk_transmitter b)) (app_key (msdk_transmitter b));
                   msdk_initialize (n + 4);
                   thread_start];
         log := log w ++
                [(INFO, psdk_connecting (device_path (psdk_receiver b)));
                 (INFO, psdk_connected);
                 (INFO, psdk_started);
                 (INFO, msdk_initializing);
                 (INFO, msdk_initialized);
                 (INFO, msdk_started);
                 (INFO, bridge_started)] |})).
Proof.
  intros Hsdk Hrx Htx n. subst n.
  destruct b as [pc mc [p r ocr rr] [i k oct rt] th run]. cbn in Hrx, Htx. subst ocr oct.
  unfold DataBridge_start, PSDKReceiver_start, PSDKReceiver_start_receiving,
    PSDKReceiver_connect, MSDKTransmitter_start, MSDKTransmitter_connect.
  unfold_monad. cbn.
  repeat (rewrite Hsdk; cbn).
  rewrite !length_app. cbn [List.length].
  replace (List.length (trace w) + 1 + 1 + 1 + 1) with (List.length (trace w) + 4) by lia.
  now rewrite <- !app_assoc.
Qed.

(** X15.  Startup order and configuration.  When no SDK call raises,
    [start] on a bridge fresh from its constructor answers [True]
    after exactly these library calls, in this order: the PSDK client
    is built with the configured device path and baud rate (or the
    defaults [/dev/ttyUSB0] and 115200), initialised, given the
    callback and set receiving; only then the MSDK client is built with
    the configured identity and key and initialised; the worker thread
    is started last.  The queue is not touched. *)
Theorem DataBridge_start_order
    (pc : option psdk_config_t) (mc : option msdk_config_t) (b : DataBridge) (w : world) :
  sdk_returns sdk ->
  DataBridge_init pc mc w = (Return b, w) ->
  let p := match pc with Some c => c | None => default_psdk_config end in
  let m := match mc with Some c => c | None => default_msdk_config end in
  let n := List.length (trace w) in
  fst (DataBridge_start sdk (b, w)) = Return true /\
  trace (snd (snd (DataBridge_start sdk (b, w)))) =
    trace w ++ [PSDKClient (cfg_device_path p) (cfg_baud_rate p);
                psdk_initialize n;
                psdk_register_data_callback n;
                psdk_start_receiving n;
                MSDKClient (cfg_app_id m) (cfg_app_key m);
                msdk_initialize (n + 4);
                thread_start] /\
  data_queue (snd (snd (DataBridge_start sdk (b, w)))) = data_queue w.
Proof.
  intros Hsdk Hinit p m n.
  unfold DataBridge_init, ret in Hinit. injection Hinit as <-.
  rewrite DataBridge_start_fresh by (exact Hsdk || reflexivity).
  cbn. auto.
Qed.

(** X16.  A whole session.  When no SDK call raises, a bridge fresh
    from its constructor that is started on an empty queue, receives
    the items [ds] through its callback, lets its worker run two steps
    per item and is then stopped, has handed exactly [ds], in order, to
    [send_data], whatever the sends answered; it ends with an empty
    queue, a worker that has returned, and the flag of the bridge and
    of both endpoints false. *)
Theorem session_relays_everything
    (pc : option psdk_config_t) (mc : option msdk_config_t) (b : DataBridge) (w : world)
    (ds : list RawItem) :
  sdk_returns sdk ->
  DataBridge_init pc mc w = (Return b, w) ->
  items (data_queue w) = [] ->
  let started := snd (DataBridge_start sdk (b, w)) in
  let s' := run sdk (WorkerStep :: map Callback ds ++
                     repeat WorkerStep (2 * List.length ds) ++
                     [StopWorker; WorkerStep; StopEndpoints]) started in
  sent (trace (snd s')) = sent (trace w) ++ ds /\
  items (data_queue (snd s')) = [] /\
  bridge_thread (fst s') = Some Finished /\
  running (fst s') = false /\
  psdk_running (psdk_receiver (fst s')) = false /\
  msdk_running (msdk_transmitter (fst s')) = false.
Proof.
  intros Hsdk Hinit Hempty started s'. subst s' started.
  unfold DataBridge_init, ret in Hinit. injection Hinit as <-.
  rewrite DataBridge_start_fresh by (exact Hsdk || reflexivity).
  cbn [snd].
  set (n := List.length (trace w)).
  match goal with
  | |- context [run sdk _ (?B, ?W)] => set (b0 := B); set (w0 := W)
  end.
  change (run sdk (WorkerStep :: map Callback ds ++
                   repeat WorkerStep (2 * List.length ds) ++
                   [StopWorker; WorkerStep; StopEndpoints]) (b0, w0))
    with (run sdk (map Callback ds ++
                   repeat WorkerStep (2 * List.length ds) ++
                   [StopWorker; WorkerStep; StopEndpoints])
            (step sdk (b0, w0) WorkerStep)).
  set (b1 := set_bridge_thread (Some AtLoopTest) b0).
  set (w1 := {| data_queue := data_queue w0;
                trace := trace w0;
                log := log w0 ++ [(INFO, worker_started)] |}).
  change (step sdk (b0, w0) WorkerStep) with (b1, w1).
  rewrite !run_app.
  destruct (run_callbacks sdk ds b1 w1) as (Hb2 & Hq2 & Hs2).
  destruct (run sdk (map Callback ds) (b1, w1)) as [b2 w2]. cbn [fst snd] in *. subst b2.
  assert (Hq2' : items (data_queue w2) = ds) by (rewrite Hq2; cbn; now rewrite Hempty).
  destruct (run_relay sdk (ds:=ds) b1 w2 (c:=n + 4) eq_refl eq_refl eq_refl Hq2')
    as (Hb3 & Hq3 & Hs3).
  destruct (run sdk (repeat WorkerStep (2 * List.length ds)) (b1, w2)) as [b3 w3].
  cbn [fst snd] in *. subst b3.
  change (run sdk [StopWorker; WorkerStep; StopEndpoints] (b1, w3))
    with (step sdk (step sdk (step sdk (b1, w3) StopWorker) WorkerStep) StopEndpoints).
  rewrite step_stop_worker.
  match goal with
  | |- context [step sdk (step sdk (?B, ?W) WorkerStep) StopEndpoints] =>
      set (b4 := B); set (w4 := W)
  end.
  set (b5 := set_bridge_thread (Some Finished) b4).
  set (w5 := {| data_queue := data_queue w4;
                trace := trace w4;
                log := log w4 ++ [(INFO, worker_stopped)] |}).
  change (step sdk (b4, w4) WorkerStep) with (b5, w5).
  cbn [step]. unfold exec.
  rewrite (stop_endpoints_started (sdk:=sdk) b5 w5 (cr:=n) (ct:=n + 4))
    by (try reflexivity; intros h c; repeat split; apply Hsdk).
  cbn. rewrite !sent_app, Hs3, Hs2. cbn. rewrite !sent_app. cbn.
  rewrite !app_nil_r. auto 7.
Qed.

(** X17.  [DataBridge.start] does not check whether the bridge is
    already running.  On a bridge whose endpoints both hold a client it
    connects nothing: when the registration and [start_receiving]
    return, it registers the callback again, starts a new worker
    thread, puts it in place of whatever thread the bridge held, and
    answers [True]. *)
Theorem DataBridge_start_again (b : DataBridge) (w : world) (cr ct : handle) :
  psdk_client (psdk_receiver b) = Some cr ->
  msdk_client (msdk_transmitter b) = Some ct ->
  raises sdk (trace w) (psdk_register_data_callback cr) = None ->
  raises sdk (trace w ++ [psdk_register_data_callback cr]) (psdk_start_receiving cr) = None ->
  DataBridge_start sdk (b, w) =
    (Return true,
     ({| psdk_config := psdk_config b;
         msdk_config := msdk_config b;
         psdk_receiver := set_psdk_running true (psdk_receiver b);
         msdk_transmitter := set_msdk_running true (msdk_transmitter b);
         bridge_thread := Some AtEntry;
         running := true |},
      {| data_queue := data_queue w;
         trace := trace w ++ [psdk_register_data_callback cr;
                              psdk_start_receiving cr;
                              thread_start];
         log := log w ++ [(INFO, psdk_started); (INFO, msdk_started);
                          (INFO, bridge_started)] |})).
Proof.
  intros Hcr Hct Hreg Hstart.
  destruct b as [pc mc [p r ocr rr] [i k oct rt] th run]. cbn in Hcr, Hct. subst ocr oct.
  unfold DataBridge_start, PSDKReceiver_start, PSDKReceiver_start_receiving,
    MSDKTransmitter_start.
  unfold_monad. cbn. rewrite Hreg. cbn. rewrite Hstart. cbn.
  now rewrite <- !app_assoc.
Qed.

End MoreProperties.

(** * The further properties at concrete inputs *)

Lemma obliging_returns : sdk_returns obliging.
Proof. intros h c. reflexivity. Qed.

Lemma PSDKReceiver_start_connected_outcome_witness :
  psdk_client (set_psdk_client (Some 0) receiver0) = Some 0 /\
  fst (PSDKReceiver_start psdk_deaf (set_psdk_client (Some 0) receiver0, world0)) =
    Return false /\
  psdk_running
    (fst (snd (PSDKReceiver_start psdk_deaf (set_psdk_client (Some 0) receiver0, world0)))) =
    true.
Proof.
  split; [reflexivity|].
  destruct (PSDKReceiver_start_connected_outcome psdk_deaf
              (set_psdk_client (Some 0) receiver0) world0 (c:=0) eq_refl)
    as (w1 & Heq & _).
  rewrite Heq. split; reflexivity.
Defined.

Lemma PSDKReceiver_start_after_failed_initialize_witness :
  psdk_client receiver0 = None /\
  raises psdk_init_fails (trace world0)
    (PSDKClient (device_path receiver0) (baud_rate receiver0)) = None /\
  raises psdk_init_fails
    (trace world0 ++ [PSDKClient (device_path receiver0) (baud_rate receiver0)])
    (psdk_initialize (List.length (trace world0))) = Some (SDKError 4) /\
  exists (rx1 : PSDKReceiver) (w1 : World string Z),
    PSDKReceiver_start psdk_init_fails (receiver0, world0) = (Return false, (rx1, w1)) /\
    psdk_client rx1 = Some 0 /\
    trace (snd (snd (PSDKReceiver_start psdk_init_fails (rx1, w1)))) =
      [PSDKClient "/dev/ttyUSB0" 115200; psdk_initialize 0;
       psdk_register_data_callback 0; psdk_start_receiving 0].
Proof.
  do 3 (split; [reflexivity|]).
  destruct (PSDKReceiver_start_after_failed_initialize psdk_init_fails receiver0 world0
              (x:=SDKError 4) eq_refl eq_refl eq_refl)
    as (rx1 & w1 & ok & rx2 & w2 & rest & Hfirst & Hc & _).
  exists rx1, w1. split; [exact Hfirst|]. split; [exact Hc|].
  injection Hfirst as <- <-. reflexivity.
Defined.

Lemma PSDKReceiver_start_returns_witness :
  exists (rx1 : PSDKReceiver) (w1 : World string Z),
    PSDKReceiver_start obliging (receiver0, world0) = (Return true, (rx1, w1)) /\
    psdk_client rx1 = Some 0 /\
    psdk_running rx1 = true.
Proof.
  destruct (PSDKReceiver_start_returns obliging receiver0 world0)
    as (ok & rx1 & w1 & Hstart & _ & _ & _ & Hok).
  exists rx1, w1.
  assert (Htrue : ok = true) by (now injection Hstart as -> _ _).
  subst ok. split; [exact Hstart|].
  destruct (Hok eq_refl) as (c & before & Hc & Hrun & _).
  split; [|exact Hrun]. rewrite Hc. now injection Hstart as <- _.
Defined.

Lemma MSDKTransmitter_start_outcome_witness :
  msdk_client transmitter_on = Some 3 /\
  fst (MSDKTransmitter_start obliging (transmitter_on, world0)) = Return true /\
  trace (snd (snd (MSDKTransmitter_start obliging (transmitter_on, world0)))) = [].
Proof.
  split; [reflexivity|].
  destruct (MSDKTransmitter_start_outcome obliging transmitter_on world0) as (H & _).
  rewrite (H 3 eq_refl). split; reflexivity.
Defined.

Lemma start_after_stop_reuses_client_witness :
  msdk_client transmitter_on = Some 3 /\
  exists (tx2 : MSDKTransmitter) (w2 : World string Z),
    MSDKTransmitter_start obliging
      (exec (MSDKTransmitter_stop obliging) (transmitter_on, world0)) =
      (Return true, (tx2, w2)) /\
    trace w2 = [msdk_finalize 3].
Proof.
  split; [reflexivity|].
  destruct (start_after_stop_reuses_client obliging) as (_ & H).
  destruct (H transmitter_on world0 3 eq_refl) as (tx2 & w2 & Hstart & _ & _ & Htr).
  exists tx2, w2. split; [exact Hstart|exact Htr].
Defined.

Lemma DataBridge_stop_idle_witness :
  (bridge_thread bridge_idle = None \/ bridge_thread bridge_idle = Some Finished) /\
  (psdk_client (psdk_receiver bridge_idle) = None \/
   psdk_running (psdk_receiver bridge_idle) = false) /\
  (msdk_client (msdk_transmitter bridge_idle) = None \/
   msdk_running (msdk_transmitter bridge_idle) = false) /\
  trace (snd (snd (DataBridge_stop obliging (bridge_idle, world0)))) = [].
Proof.
  do 3 (split; [now left|]).
  rewrite (DataBridge_stop_idle obliging bridge_idle world0
             (or_introl eq_refl) (or_introl eq_refl) (or_introl eq_refl)).
  reflexivity.
Defined.

Lemma DataBridge_stop_twice_witness :
  fst (DataBridge_stop obliging (bridge_on, world0)) = Return tt /\
  fst (DataBridge_stop obliging (snd (DataBridge_stop obliging (bridge_on, world0)))) =
    Return tt.
Proof.
  split; [reflexivity|].
  destruct (DataBridge_stop_twice obliging bridge_on world0 eq_refl) as (new & Heq & _).
  now rewrite Heq.
Defined.

Lemma queue_counter_invariant_witness :
  counted (data_queue world0) /\
  worker_errors
    (log (snd (run picky [Callback "C"; WorkerStep; WorkerStep; Callback "A"; WorkerStep]
                 (bridge_on, world0)))) = [].
Proof.
  assert (Hc : counted (data_queue world0)) by (unfold counted; cbn; lia).
  split; [exact Hc|].
  destruct (queue_counter_invariant picky
              [Callback "C"; WorkerStep; WorkerStep; Callback "A"; WorkerStep]
              bridge_on world0 Hc) as (_ & _ & Hlog).
  exact Hlog.
Defined.

Lemma idle_worker_only_polls_witness :
  bridge_thread bridge_on = Some AtLoopTest /\
  running bridge_on = true /\
  items (data_queue world0) = [] /\
  trace (snd (run obliging (repeat WorkerStep 6) (bridge_on, world0))) =
    [queue_get 1%Z; queue_get 1%Z; queue_get 1%Z].
Proof.
  do 3 (split; [reflexivity|]).
  change 6 with (2 * 3).
  now rewrite (idle_worker_only_polls obliging 3 bridge_on world0 eq_refl eq_refl eq_refl).
Defined.

Lemma pushes_after_worker_returned_witness :
  (bridge_thread bridge_idle = None \/ bridge_thread bridge_idle = Some Finished) /\
  items (data_queue (snd (run obliging [Callback "A"; WorkerStep; StopWorker; Callback "B"]
                            (bridge_idle, world0)))) = ["A"; "B"].
Proof.
  split; [now left|].
  destruct (pushes_after_worker_returned obliging
              [Callback "A"; WorkerStep; StopWorker; Callback "B"]
              bridge_idle world0 (or_introl eq_refl)) as (H & _).
  exact H.
Defined.

Lemma background_changes_only_thread_witness :
  background [Callback "A"; WorkerStep; WorkerStep] = true /\
  fst (run obliging [Callback "A"; WorkerStep; WorkerStep] (bridge_on, world0)) =
    set_bridge_thread (Some AtLoopTest) bridge_on.
Proof.
  split; [reflexivity|].
  rewrite (background_changes_only_thread obliging
             [Callback "A"; WorkerStep; WorkerStep] bridge_on world0 eq_refl).
  reflexivity.
Defined.

Lemma DataBridge_start_order_witness :
  sdk_returns obliging /\
  DataBridge_init None None world0 = (Return bridge_idle, world0) /\
  trace (snd (snd (DataBridge_start obliging (bridge_idle, world0)))) =
    [PSDKClient "/dev/ttyUSB0" 115200; psdk_initialize 0;
     psdk_register_data_callback 0; psdk_start_receiving 0;
     MSDKClient "your_app_id" "your_app_key"; msdk_initialize 4; thread_start].
Proof.
  split; [exact obliging_returns|]. split; [reflexivity|].
  destruct (DataBridge_start_order (sdk:=obliging) (pc:=None) (mc:=None)
              (b:=bridge_idle) (w:=world0) obliging_returns eq_refl) as (_ & Htr & _).
  exact Htr.
Defined.

Lemma session_relays_everything_witness :
  sdk_returns obliging /\
  DataBridge_init None None world0 = (Return bridge_idle, world0) /\
  items (data_queue world0) = [] /\
  sent (trace (snd (run obliging
                      (WorkerStep :: map Callback ["A"; "B"] ++ repeat WorkerStep 4 ++
                       [StopWorker; WorkerStep; StopEndpoints])
                      (snd (DataBridge_start obliging (bridge_idle, world0)))))) =
    ["A"; "B"].
Proof.
  split; [exact obliging_returns|]. do 2 (split; [reflexivity|]).
  destruct (session_relays_everything (sdk:=obliging) (pc:=None) (mc:=None)
              (b:=bridge_idle) (w:=world0) ["A"; "B"] obliging_returns eq_refl eq_refl)
    as (H & _).
  exact H.
Defined.

Lemma DataBridge_start_again_witness :
  psdk_client (psdk_receiver bridge_on) = Some 0 /\
  msdk_client (msdk_transmitter bridge_on) = Some 3 /\
  fst (DataBridge_start obliging (bridge_on, world0)) = Return true /\
  bridge_thread (fst (snd (DataBridge_start obliging (bridge_on, world0)))) = Some AtEntry /\
  trace (snd (snd (DataBridge_start obliging (bridge_on, world0)))) =
    [psdk_register_data_callback 0; psdk_start_receiving 0; thread_start].
Proof.
  do 2 (split; [reflexivity|]).
  rewrite (DataBridge_start_again obliging bridge_on world0 (cr:=0) (ct:=3)
             eq_refl eq_refl eq_refl eq_refl).
  repeat split.
Defined.
